(** * rasa.core.channels.botframework : a shallow embedding

    The module connects a conversational backend to the Microsoft Bot
    Framework.  [BotFramework] is the outbound channel: it keeps a bearer
    token in two class attributes shared by every instance, builds activity
    payloads and posts them.  [BotFrameworkInput] is the inbound side: its
    [/webhook] route turns a posted activity into a [UserMessage] and hands
    it to the backend.

    Python values are embedded as a tree of JSON-like values, the class
    attributes, the dict objects passed by reference, the clock and the
    record of observable calls (HTTP posts, log records) as an explicit
    state, and exceptions as an error result threaded through a small
    state-and-exception monad. *)

From Stdlib Require Import ZArith String Ascii List Lia Bool DecimalString.
From stdpp Require Import base gmap strings.
Import ListNotations.

Open Scope Z_scope.

(** ** Python values *)

(** The values a decoded JSON document is made of.  A [str] is a sequence of
    code points below 256, one [ascii] each; floats are not represented,
    and an [int] is one the interpreter converts to text (by default it
    refuses an [int] of more than 4300 digits).  A dict keeps its items
    in insertion order, as Python does. *)
#[warnings="-register-all"]
Inductive pyval : Type :=
  | PNone
  | PBool (b : bool)
  | PInt (z : Z)
  | PStr (s : string)
  | PList (l : list pyval)
  | PDict (d : list (string * pyval)).

Abbreviation pydict := (list (string * pyval)).

(** The exceptions the module can meet.  All of them derive from
    [Exception].  [RequestException] is the base class of what
    [requests.post] raises ([MissingSchema], [InvalidSchema], [InvalidURL],
    [ConnectionError], [Timeout] and the like), which are not told apart;
    [Failure] stands for whatever the backend handler raises. *)
Inductive exn : Type :=
  | KeyError (key : string)
  | TypeError
  | AttributeError
  | ValueError
  | OverflowError
  | RequestException
  | InvalidUsage
  | Failure (what : string).

Inductive result (A : Type) : Type :=
  | Ok (a : A)
  | Raise (e : exn).
Arguments Ok {A} a.
Arguments Raise {A} e.

Module Py.

(** *** dict *)

(** the value under [k], if [d] has the key *)
Fixpoint dict_get (k : string) (d : pydict) : option pyval :=
  match d with
  | [] => None
  | (k', v) :: d' => if String.eqb k k' then Some v else dict_get k d'
  end.

(** [d[k] = v]: an existing key keeps its place, a new one goes last. *)
Fixpoint dict_set (k : string) (v : pyval) (d : pydict) : pydict :=
  match d with
  | [] => [(k, v)]
  | (k', v') :: d' =>
      if String.eqb k k' then (k', v) :: d' else (k', v') :: dict_set k v d'
  end.

(** [d.update(m)]: the items of [m] are stored one after the other. *)
Definition dict_update (d m : pydict) : pydict :=
  fold_left (fun acc kv => dict_set (fst kv) (snd kv) acc) m d.

Definition keys (d : pydict) : list string := map fst d.

(** *** operators on values *)

(** [bool(v)] *)
Definition truthy (v : pyval) : bool :=
  match v with
  | PNone => false
  | PBool b => b
  | PInt z => negb (z =? 0)
  | PStr s => negb (String.eqb s "")
  | PList l => match l with [] => false | _ => true end
  | PDict d => match d with [] => false | _ => true end
  end.

(** [v[k]] for a [str] key [k] *)
Definition getitem (v : pyval) (k : string) : result pyval :=
  match v with
  | PDict d =>
      match dict_get k d with
      | Some x => Ok x
      | None => Raise (KeyError k)
      end
  | _ => Raise TypeError
  end.

(** [v.get(k)]: only a dict has the method. *)
Definition get (v : pyval) (k : string) : result pyval :=
  match v with
  | PDict d =>
      match dict_get k d with
      | Some x => Ok x
      | None => Ok PNone
      end
  | _ => Raise AttributeError
  end.

(** [v == s] for a [str] constant [s] *)
Definition eq_str (v : pyval) (s : string) : bool :=
  match v with
  | PStr s' => String.eqb s' s
  | _ => false
  end.

(** *** text *)

Definition code (c : ascii) : N := N_of_ascii c.

Definition hex_digit (n : N) : ascii :=
  if (n <? 10)%N then ascii_of_N (48 + n) else ascii_of_N (87 + n).

(** two lower-case hexadecimal digits *)
Definition hex2 (c : ascii) : string :=
  String (hex_digit (code c / 16)) (String (hex_digit (code c mod 16)) "").

Definition decimal (z : Z) : string := NilZero.string_of_int (Z.to_int z).

Fixpoint concat_map (f : ascii -> string) (s : string) : string :=
  match s with
  | EmptyString => ""
  | String c s' => f c +:+ concat_map f s'
  end.

Fixpoint contains (c : ascii) (s : string) : bool :=
  match s with
  | EmptyString => false
  | String c' s' => Ascii.eqb c c' || contains c s'
  end.

(** [str.isprintable] on one code point below 256 *)
Definition printable (c : ascii) : bool :=
  let n := code c in
  ((32 <=? n) && (n <? 127) || (161 <=? n) && negb (n =? 173))%N.

Definition repr_char (quote : ascii) (c : ascii) : string :=
  if Ascii.eqb c quote || Ascii.eqb c "\" then String "\" (String c "")
  else if Ascii.eqb c "009" then "\t"
  else if Ascii.eqb c "010" then "\n"
  else if Ascii.eqb c "013" then "\r"
  else if printable c then String c ""
  else "\x" +:+ hex2 c.

(** [repr(s)]: single quotes, unless [s] has one and no double quote. *)
Definition repr_str (s : string) : string :=
  let quote : ascii :=
    if contains "'" s && negb (contains "034" s) then "034"%char
    else "'"%char in
  String quote (concat_map (repr_char quote) s +:+ String quote "").

Fixpoint join (sep : string) (l : list string) : string :=
  match l with
  | [] => ""
  | [x] => x
  | x :: l' => x +:+ sep +:+ join sep l'
  end.

(** [repr(v)] *)
Fixpoint repr (v : pyval) : string :=
  match v with
  | PNone => "None"
  | PBool true => "True"
  | PBool false => "False"
  | PInt z => decimal z
  | PStr s => repr_str s
  | PList l => "[" +:+ join ", " (map repr l) +:+ "]"
  | PDict d =>
      "{" +:+ join ", "
               (map (fun kv => repr_str (fst kv) +:+ ": " +:+ repr (snd kv)) d)
          +:+ "}"
  end.

(** [str(v)], which is also what ["{}".format(v)] and ["%s" % v] give *)
Definition str (v : pyval) : string :=
  match v with
  | PStr s => s
  | _ => repr v
  end.

(** *** json.dumps *)

(** One code point inside a JSON string, with [ensure_ascii] on:
    backslash, the double quote and the usual control characters have
    short escapes, anything else outside [' '..'~'] is written with four
    hexadecimal digits. *)
Definition json_char (c : ascii) : string :=
  if Ascii.eqb c "034" then String "\" (String "034" "")
  else if Ascii.eqb c "\" then "\\"
  else if Ascii.eqb c "010" then "\n"
  else if Ascii.eqb c "013" then "\r"
  else if Ascii.eqb c "009" then "\t"
  else if Ascii.eqb c "008" then "\b"
  else if Ascii.eqb c "012" then "\f"
  else if ((32 <=? code c) && (code c <=? 126))%N then String c ""
  else "\u00" +:+ hex2 c.

Definition json_string (s : string) : string :=
  String "034" (concat_map json_char s +:+ String "034" "").

(** [json.dumps(v)] with the default separators [", "] and [": "] *)
Fixpoint json_dumps (v : pyval) : string :=
  match v with
  | PNone => "null"
  | PBool true => "true"
  | PBool false => "false"
  | PInt z => decimal z
  | PStr s => json_string s
  | PList l => "[" +:+ join ", " (map json_dumps l) +:+ "]"
  | PDict d =>
      "{" +:+ join ", "
                (map (fun kv => json_string (fst kv) +:+ ": "
                                +:+ json_dumps (snd kv)) d)
          +:+ "}"
  end.

(** [json.dumps(v, separators=(',', ':'))]: the same text without the
    blanks after the separators *)
Fixpoint json_dumps_compact (v : pyval) : string :=
  match v with
  | PNone => "null"
  | PBool true => "true"
  | PBool false => "false"
  | PInt z => decimal z
  | PStr s => json_string s
  | PList l => "[" +:+ join "," (map json_dumps_compact l) +:+ "]"
  | PDict d =>
      "{" +:+ join ","
                (map (fun kv => json_string (fst kv) +:+ ":"
                                +:+ json_dumps_compact (snd kv)) d)
          +:+ "}"
  end.

(** *** str.lstrip, str.lower *)

(** [str.isspace] on one code point below 256 *)
Definition is_space (c : ascii) : bool :=
  let n := code c in
  ((9 <=? n) && (n <=? 13) || (28 <=? n) && (n <=? 32)
   || (n =? 133) || (n =? 160))%N.

(** [s.lstrip()] *)
Fixpoint lstrip (s : string) : string :=
  match s with
  | String c s' => if is_space c then lstrip s' else s
  | EmptyString => EmptyString
  end.

(** [str.lower] on one code point below 256: the letters [A] to [Z] and the
    capital letters of Latin-1, which are 192 to 222 without 215 *)
Definition lower_char (c : ascii) : ascii :=
  let n := code c in
  if ((65 <=? n) && (n <=? 90)
      || (192 <=? n) && (n <=? 222) && negb (n =? 215))%N
  then ascii_of_N (n + 32)
  else c.

(** [s.lower()] *)
Fixpoint lower (s : string) : string :=
  match s with
  | String c s' => String (lower_char c) (lower s')
  | EmptyString => EmptyString
  end.

(** *** int *)

(** The blanks [int] skips around a number: tab to carriage return and the
    space, and, in a [str] that is not ASCII, the two blanks of Latin-1.
    The separators 28 to 31 are blanks for [str.isspace], not for [int]. *)
Definition is_int_space (c : ascii) : bool :=
  let n := code c in
  ((9 <=? n) && (n <=? 13) || (n =? 32) || (n =? 133) || (n =? 160))%N.

Definition is_digit (c : ascii) : bool :=
  ((48 <=? code c) && (code c <=? 57))%N.

Fixpoint skip_blanks (s : string) : string :=
  match s with
  | String c s' => if is_int_space c then skip_blanks s' else s
  | EmptyString => EmptyString
  end.

(** [s] without the blanks at both ends *)
Definition unblank (s : string) : string :=
  String.rev (skip_blanks (String.rev (skip_blanks s))).

(** Decimal digits, where one underscore may stand between two digits.
    [seen] tells that the character before was a digit. *)
Fixpoint digits (acc : Z) (seen : bool) (s : string) : option Z :=
  match s with
  | EmptyString => if seen then Some acc else None
  | String c s' =>
      if is_digit c then digits (10 * acc + (Z.of_N (code c) - 48)) true s'
      else if Ascii.eqb c "_" && seen then digits acc false s'
      else None
  end.

Fixpoint count_digits (s : string) : nat :=
  match s with
  | EmptyString => O
  | String c s' => if is_digit c then S (count_digits s') else count_digits s'
  end.

(** the most digits [int] converts, [sys.int_info.default_max_str_digits] *)
Definition max_str_digits : nat := 4300.

(** [int(s)] for a [str] *)
Definition int_of_str (s : string) : result Z :=
  let body (t : string) :=
    match digits 0 false t with
    | Some z =>
        if (max_str_digits <? count_digits t)%nat then Raise ValueError
        else Ok z
    | None => Raise ValueError
    end in
  match unblank s with
  | String "+" t => body t
  | String "-" t =>
      match body t with Ok z => Ok (- z) | Raise e => Raise e end
  | t => body t
  end.

(** [int(v)] *)
Definition int (v : pyval) : result Z :=
  match v with
  | PInt z => Ok z
  | PBool b => Ok (if b then 1 else 0)
  | PStr s => int_of_str s
  | PNone | PList _ | PDict _ => Raise TypeError
  end.

(** *** str.split *)

Fixpoint starts_with (p s : string) : bool :=
  match p, s with
  | EmptyString, _ => true
  | String a p', String b s' => Ascii.eqb a b && starts_with p' s'
  | String _ _, EmptyString => false
  end.

(** [split_from sep skip cur s]: the pieces of [cur] followed by [s],
    where the first [skip] characters of [s] are the rest of a separator
    already found and [cur] is the piece being read, last character
    first. *)
Fixpoint split_from (sep : string) (skip : nat) (cur : string) (s : string)
  : list string :=
  match s with
  | EmptyString => [String.rev cur]
  | String c s' =>
      match skip with
      | S n => split_from sep n cur s'
      | O =>
          if starts_with sep s
          then String.rev cur
                 :: split_from sep (Nat.pred (String.length sep))
                      EmptyString s'
          else split_from sep O (String c cur) s'
      end
  end.

(** [s.split(sep)] for a separator that is not empty: the pieces between
    the occurrences of [sep] found from the left, never an empty list. *)
Definition split (sep : string) (s : string) : list string :=
  split_from sep O EmptyString s.

End Py.

(** ** The world the module runs in *)

(** A [datetime] is the number of microseconds since the first instant of
    the year 1, [datetime.min]; the last one, [datetime.max], is the last
    microsecond of the year 9999, day 3652059 of the calendar. *)
Abbreviation datetime := Z (only parsing).

Definition datetime_max : Z := 3652059 * 86400 * 1000000 - 1.

(** A [timedelta] is a number of microseconds, of at most 999999999 days
    either way. *)
Abbreviation timedelta := Z (only parsing).

(** [datetime.timedelta(seconds=n)] for an [int]: [OverflowError] when the
    days of [n], rounded down, are more than a [timedelta] holds *)
Definition timedelta_seconds (n : Z) : result timedelta :=
  if (-999999999 <=? n / 86400) && (n / 86400 <=? 999999999)
  then Ok (n * 1000000)
  else Raise OverflowError.

(** [t + delta]: [OverflowError] when the date is outside the calendar *)
Definition datetime_add (t : datetime) (delta : timedelta) : result datetime :=
  if (0 <=? t + delta) && (t + delta <=? datetime_max)
  then Ok (t + delta)
  else Raise OverflowError.

(** The [data] argument of [requests.post]: a dict is sent as a form, a
    [str] as it is. *)
Inductive PostData : Type :=
  | FormData (fields : pydict)
  | TextData (body : string).

Record HttpRequest : Type := {
  uri : string;
  sent_headers : option (list (string * string));
  data : PostData }.

(** What the module reads of a [requests.Response]: [ok], the library's
    flag for a status that is no error, the [text] of the body and the
    outcome of [json()]. *)
Record Response : Type := {
  ok : bool;
  text : string;
  json : result pyval }.

Inductive Level : Type := DEBUG | INFO | ERROR.

(** The argument of a logging call. *)
Inductive Message : Type :=
  | Plain (msg : string)
  | WithText (template : string) (arg : string)
  | WithException (template : string) (e : exn)
  | Traceback (e : exn)
  | Dump (v : pyval).

(** The calls that leave the process, in the order they are made. *)
Inductive Event : Type :=
  | Posted (r : HttpRequest)
  | Logged (lvl : Level) (m : Message).

(** The state every coroutine of the process works on:
    - [token_expiration_date] and [headers], the class attributes of
      [BotFramework], shared by all its instances;
    - [heap], the objects that are handed over by reference (an address
      with no object reads as [None]);
    - [trace], the posts and log records made so far;
    - [clock], the successive readings of [datetime.datetime.now()], and
      [ticks], how many were taken;
    - [server], what [requests.post] comes to for a request it sends, given
      all that happened before: the response, or the exception of an
      address the library cannot use, a connection that fails or an answer
      that does not come. *)
Record World : Type := {
  token_expiration_date : datetime;
  headers : option (list (string * string));
  heap : gmap nat pyval;
  trace : list Event;
  ticks : nat;
  clock : nat -> datetime;
  server : list Event -> HttpRequest -> result Response }.

Definition with_cache (exp : Z) (h : option (list (string * string)))
  (st : World) : World :=
  {| token_expiration_date := exp; headers := h; heap := heap st;
     trace := trace st; ticks := ticks st; clock := clock st;
     server := server st |}.

Definition with_heap (hp : gmap nat pyval) (st : World) : World :=
  {| token_expiration_date := token_expiration_date st;
     headers := headers st; heap := hp; trace := trace st;
     ticks := ticks st; clock := clock st; server := server st |}.

Definition with_trace (tr : list Event) (st : World) : World :=
  {| token_expiration_date := token_expiration_date st;
     headers := headers st; heap := heap st; trace := tr;
     ticks := ticks st; clock := clock st; server := server st |}.

Definition with_ticks (n : nat) (st : World) : World :=
  {| token_expiration_date := token_expiration_date st;
     headers := headers st; heap := heap st; trace := trace st;
     ticks := n; clock := clock st; server := server st |}.

(** ** Computations: state and exceptions *)

(** A computation runs on the world and ends with a value or with an
    exception; what it did to the world before raising stays done. *)
Definition M (A : Type) : Type := World -> result A * World.

Definition ret {A} (a : A) : M A := fun st => (Ok a, st).

Definition raise {A} (e : exn) : M A := fun st => (Raise e, st).

Definition bind {A B} (m : M A) (k : A -> M B) : M B :=
  fun st =>
    match m st with
    | (Ok a, st') => k a st'
    | (Raise e, st') => (Raise e, st')
    end.

Notation "x <- m ;; k" := (bind m (fun x => k))
  (at level 100, m at next level, right associativity).
Notation "m ;; k" := (bind m (fun _ => k))
  (at level 100, right associativity).

(** the outcome of a pure operation that may raise *)
Definition lift {A} (r : result A) : M A := fun st => (r, st).

(** [try: body  except Exception as e: handler(e)] *)
Definition try_except {A} (body : M A) (handler : exn -> M A) : M A :=
  fun st =>
    match body st with
    | (Ok a, st') => (Ok a, st')
    | (Raise e, st') => handler e st'
    end.

(** [for x in l: body(x)] *)
Fixpoint for_each {A} (l : list A) (body : A -> M unit) : M unit :=
  match l with
  | [] => ret tt
  | x :: l' => body x ;; for_each l' body
  end.

(** [datetime.datetime.now()] *)
Definition now : M datetime :=
  fun st => (Ok (clock st (ticks st)), with_ticks (S (ticks st)) st).

(** Whether [requests] has a connection adapter for the address: blanks at
    its start apart, it begins with [http://] or [https://], in either
    case of the letters. *)
Definition http_url (u : string) : bool :=
  let v := Py.lower (Py.lstrip u) in
  Py.starts_with "http://" v || Py.starts_with "https://" v.

(** [requests.post(uri, headers=h, data=d)].  An address without one of the
    two schemes is refused before anything is sent ([MissingSchema],
    [InvalidSchema] or [InvalidURL]); any other request is recorded and
    comes to what [server] says. *)
Definition requests_post (u : string) (h : option (list (string * string)))
  (d : PostData) : M Response :=
  fun st =>
    let r := {| uri := u; sent_headers := h; data := d |} in
    if http_url u
    then (server st (trace st) r, with_trace (trace st ++ [Posted r]) st)
    else (Raise RequestException, st).

(** [logger.debug], [logger.info], [logger.error] *)
Definition log (lvl : Level) (m : Message) : M unit :=
  fun st => (Ok tt, with_trace (trace st ++ [Logged lvl m]) st).

Definition get_token_expiration_date : M datetime :=
  fun st => (Ok (token_expiration_date st), st).

Definition get_headers_attr : M (option (list (string * string))) :=
  fun st => (Ok (headers st), st).

Definition set_token_expiration_date (t : datetime) : M unit :=
  fun st => (Ok tt, with_cache t (headers st) st).

Definition set_headers (h : option (list (string * string))) : M unit :=
  fun st => (Ok tt, with_cache (token_expiration_date st) h st).

(** *** Objects held by reference *)

(** A place is a dict inside an object of the heap: the address of the
    object and the keys that lead from it to the dict.  A nested value
    belongs to the dict that holds it. *)
Record place : Type := { base : nat; path : list string }.

Definition object_at (a : nat) : place := {| base := a; path := [] |}.

Definition subplace (p : place) (k : string) : place :=
  {| base := base p; path := path p ++ [k] |}.

Fixpoint read_path (v : pyval) (p : list string) : option pyval :=
  match p with
  | [] => Some v
  | k :: p' =>
      match v with
      | PDict d =>
          match Py.dict_get k d with
          | Some u => read_path u p'
          | None => None
          end
      | _ => None
      end
  end.

Fixpoint write_path (v : pyval) (p : list string) (x : pyval) : pyval :=
  match p with
  | [] => x
  | k :: p' =>
      match v with
      | PDict d =>
          match Py.dict_get k d with
          | Some u => PDict (Py.dict_set k (write_path u p' x) d)
          | None => v
          end
      | _ => v
      end
  end.

Definition object (st : World) (a : nat) : pyval :=
  match heap st !! a with Some v => v | None => PNone end.

(** the value a place holds *)
Definition load (p : place) : M pyval :=
  fun st =>
    match read_path (object st (base p)) (path p) with
    | Some v => (Ok v, st)
    | None => (Ok PNone, st)
    end.

(** [p.setdefault(k, v)]: the place of the value under [k] afterwards.
      Only a dict has the method; a missing key is added to the very
      object the place lies in. *)
Definition setdefault (p : place) (k : string) (v : pyval) : M place :=
  fun st =>
    match read_path (object st (base p)) (path p) with
    | Some (PDict d) =>
        match Py.dict_get k d with
        | Some _ => (Ok (subplace p k), st)
        | None =>
            let o := write_path (object st (base p)) (path p)
                       (PDict (d ++ [(k, v)])) in
            (Ok (subplace p k), with_heap (<[base p := o]> (heap st)) st)
        end
    | _ => (Raise AttributeError, st)
    end.

(** ** The outbound channel *)

Definition MICROSOFT_OAUTH2_URL : string := "https://login.microsoftonline.com".

Definition MICROSOFT_OAUTH2_PATH : string := "botframework.com/oauth2/v2.0/token".

(** the separator of [send_text_message], two line feeds *)
Definition blank_line : string := String "010" (String "010" EmptyString).

Module BotFramework.

(** An instance.  The webhook builds it from fields of the activity, so
    the attributes hold whatever JSON the activity carried. *)
Record t : Type := {
  app_id : pyval;
  app_password : pyval;
  conversation : pyval;
  global_uri : string;
  bot : pyval }.

Definition name : string := "botframework".

(** the class body: both attributes are set when the class is created *)
Definition class_body : M unit :=
  t0 <- now ;;
  set_token_expiration_date t0 ;;
  set_headers None.

Definition __init__ (app_id app_password conversation bot service_url : pyval)
  : t :=
  {| app_id := app_id;
     app_password := app_password;
     conversation := conversation;
     global_uri := Py.str service_url +:+ "v3/";
     bot := bot |}.

Definition _get_headers (self : t) : M (option (list (string * string))) :=
  expiration <- get_token_expiration_date ;;
  t1 <- now ;;
  if expiration <? t1 then
    let uri := MICROSOFT_OAUTH2_URL +:+ "/" +:+ MICROSOFT_OAUTH2_PATH in
    let grant_type := "client_credentials" in
    let scope := "https://api.botframework.com/.default" in
    let payload :=
      [ ("client_id", app_id self);
        ("client_secret", app_password self);
        ("grant_type", PStr grant_type);
        ("scope", PStr scope) ] in
    token_response <- requests_post uri None (FormData payload) ;;
    if ok token_response then
      token_data <- lift (json token_response) ;;
      access_token <- lift (Py.getitem token_data "access_token") ;;
      token_expiration <- lift (Py.getitem token_data "expires_in") ;;
      seconds <- lift (Py.int token_expiration) ;;
      delta <- lift (timedelta_seconds seconds) ;;
      t2 <- now ;;
      expiration' <- lift (datetime_add t2 delta) ;;
      set_token_expiration_date expiration' ;;
      set_headers
        (Some [ ("content-type", "application/json");
                ("Authorization", "Bearer " +:+ Py.str access_token) ]) ;;
      get_headers_attr
    else
      log ERROR (Plain "Could not get BotFramework token") ;;
      ret None
  else
    get_headers_attr.

Definition prepare_message (self : t) (recipient_id : pyval)
  (message_data : pydict) : pydict :=
  let data :=
    [ ("type", PStr "message");
      ("recipient", PDict [("id", recipient_id)]);
      ("from", bot self);
      ("channelData",
        PDict [("notification", PDict [("alert", PStr "true")])]);
      ("text", PStr "") ] in
  Py.dict_update data message_data.

Definition send (self : t) (message_data : pyval) : M unit :=
  conversation_id <- lift (Py.getitem (conversation self) "id") ;;
  let post_message_uri :=
    global_uri self +:+ "conversations/" +:+ Py.str conversation_id
      +:+ "/activities" in
  headers <- _get_headers self ;;
  send_response <-
    requests_post post_message_uri headers
      (TextData (Py.json_dumps message_data)) ;;
  if negb (ok send_response) then
    log ERROR
      (WithText "Error trying to send botframework messge. Response: %s"
         (text send_response))
  else ret tt.

Definition send_text_message (self : t) (recipient_id : pyval)
  (text : string) : M unit :=
  for_each (Py.split blank_line text) (fun message_part =>
    let text_message := [("text", PStr message_part)] in
    let message := prepare_message self recipient_id text_message in
    send self (PDict message)).

Definition send_image_url (self : t) (recipient_id : pyval) (image : pyval)
  : M unit :=
  let hero_content :=
    PDict [ ("contentType", PStr "application/vnd.microsoft.card.hero");
            ("content", PDict [("images", PList [PDict [("url", image)]])]) ]
  in
  let image_message := [("attachments", PList [hero_content])] in
  let message := prepare_message self recipient_id image_message in
  send self (PDict message).

Definition send_text_with_buttons (self : t) (recipient_id : pyval)
  (text : pyval) (buttons : pyval) : M unit :=
  let hero_content :=
    PDict [ ("contentType", PStr "application/vnd.microsoft.card.hero");
            ("content", PDict [("subtitle", text); ("buttons", buttons)]) ]
  in
  let buttons_message := [("attachments", PList [hero_content])] in
  let message := prepare_message self recipient_id buttons_message in
  send self (PDict message).

Definition send_elements (self : t) (recipient_id : pyval)
  (elements : list pydict) : M unit :=
  for_each elements (fun e =>
    let message := prepare_message self recipient_id e in
    send self (PDict message)).

(** [json_message] is the caller's dict object, reached through its
    address; every [setdefault] works on that object. *)
Definition send_custom_json (self : t) (recipient_id : pyval)
  (json_message : place) : M unit :=
  _ <- setdefault json_message "type" (PStr "message") ;;
  recipient <- setdefault json_message "recipient" (PDict []) ;;
  _ <- setdefault recipient "id" recipient_id ;;
  _ <- setdefault json_message "from" (bot self) ;;
  channel_data <- setdefault json_message "channelData" (PDict []) ;;
  notification <- setdefault channel_data "notification" (PDict []) ;;
  _ <- setdefault notification "alert" (PStr "true") ;;
  _ <- setdefault json_message "text" (PStr "") ;;
  message <- load json_message ;;
  send self message.

End BotFramework.

(** ** The inbound channel *)

Module UserMessage.

(** Modelled from the spec: the class [UserMessage] of
    [rasa.core.channels.channel], which is not among the sources.  The
    spec's normalized inbound message has a text, a sender id, an optional
    metadata map, an output channel and the name of the input channel; the
    record holds them as the webhook passes them to the constructor, with
    [None] for a metadata that is not given. *)
Record t : Type := {
  text : pyval;
  output_channel : BotFramework.t;
  sender_id : pyval;
  input_channel : string;
  metadata : pyval }.

End UserMessage.

(** What the webhook reads of the request, [request.json].  The web
    framework decodes the body when the attribute is read: the read gives
    the decoded value, [None] for an empty body, or raises [InvalidUsage]
    for a body that is not JSON. *)
Module Request.
Record t : Type := { json : result pyval }.
End Request.

(** What a route answers: [response.text(body)] has status 200. *)
Record HTTPResponse : Type := {
  status : Z;
  content_type : string;
  body : string }.

Definition response_text (s : string) : HTTPResponse :=
  {| status := 200; content_type := "text/plain; charset=utf-8"; body := s |}.

(** [response.json(v)]: the framework serialises without blanks *)
Definition response_json (v : pyval) : HTTPResponse :=
  {| status := 200; content_type := "application/json";
     body := Py.json_dumps_compact v |}.

Module BotFrameworkInput.

Record t : Type := { app_id : pyval; app_password : pyval }.

Definition name : string := "botframework".

Definition health (request : Request.t) : M HTTPResponse :=
  ret (response_json (PDict [("status", PStr "ok")])).

(** the body of the [try] block *)
Definition handle (self : t) (on_new_message : UserMessage.t -> M unit)
  (postdata : pyval) : M unit :=
  activity_type <- lift (Py.getitem postdata "type") ;;
  if Py.eq_str activity_type "message" then
    conversation <- lift (Py.getitem postdata "conversation") ;;
    recipient <- lift (Py.getitem postdata "recipient") ;;
    service_url <- lift (Py.getitem postdata "serviceUrl") ;;
    let out_channel :=
      BotFramework.__init__ (app_id self) (app_password self)
        conversation recipient service_url in
    log DEBUG (Dump postdata) ;;
    attachments <- lift (Py.get postdata "attachments") ;;
    user_msg <-
      (if Py.truthy attachments then
         has_text <- lift (Py.get postdata "text") ;;
         text <- (if Py.truthy has_text
                  then lift (Py.getitem postdata "text")
                  else ret (PStr "")) ;;
         attached <- lift (Py.getitem postdata "attachments") ;;
         sender <- lift (Py.getitem postdata "from") ;;
         sender_id <- lift (Py.getitem sender "id") ;;
         ret {| UserMessage.text := text;
                UserMessage.metadata := PDict [("attachments", attached)];
                UserMessage.output_channel := out_channel;
                UserMessage.sender_id := sender_id;
                UserMessage.input_channel := name |}
       else
         has_text <- lift (Py.get postdata "text") ;;
         if Py.truthy has_text then
           text <- lift (Py.getitem postdata "text") ;;
           sender <- lift (Py.getitem postdata "from") ;;
           sender_id <- lift (Py.getitem sender "id") ;;
           ret {| UserMessage.text := text;
                  UserMessage.output_channel := out_channel;
                  UserMessage.sender_id := sender_id;
                  UserMessage.input_channel := name;
                  UserMessage.metadata := PNone |}
         else
           value <- lift (Py.getitem postdata "value") ;;
           sender <- lift (Py.getitem postdata "from") ;;
           sender_id <- lift (Py.getitem sender "id") ;;
           ret {| UserMessage.text := PStr (Py.json_dumps value);
                  UserMessage.output_channel := out_channel;
                  UserMessage.sender_id := sender_id;
                  UserMessage.input_channel := name;
                  UserMessage.metadata := PNone |}) ;;
    on_new_message user_msg
  else
    log INFO (Plain "Not received message type").

Definition webhook (self : t) (on_new_message : UserMessage.t -> M unit)
  (request : Request.t) : M HTTPResponse :=
  postdata <- lift (Request.json request) ;;
  try_except (handle self on_new_message postdata)
    (fun e =>
       log ERROR
         (WithException "Exception when trying to handle message.{0}" e) ;;
       log DEBUG (Traceback e)) ;;
  ret (response_text "success").

End BotFrameworkInput.

(** * The vocabulary of the statements *)

(** ** Traces *)

(** the requests posted, oldest first *)
Fixpoint posts (tr : list Event) : list HttpRequest :=
  match tr with
  | [] => []
  | Posted r :: tr' => r :: posts tr'
  | Logged _ _ :: tr' => posts tr'
  end.

(** the activities posted: address and body of every post whose data is a
    [str] (the token request posts a form) *)
Fixpoint deliveries (tr : list Event) : list (string * string) :=
  match tr with
  | [] => []
  | Posted r :: tr' =>
      match data r with
      | TextData b => (uri r, b) :: deliveries tr'
      | FormData _ => deliveries tr'
      end
  | Logged _ _ :: tr' => deliveries tr'
  end.

(** [n] calls in a row, with the values they returned *)
Fixpoint repeatedly {A} (n : nat) (m : M A) : M (list A) :=
  match n with
  | O => ret []
  | S n' => x <- m ;; xs <- repeatedly n' m ;; ret (x :: xs)
  end.

(** ** The token cache *)

(** the request [_get_headers] sends to the identity service *)
Definition token_request (self : BotFramework.t) : HttpRequest :=
  {| uri := "https://login.microsoftonline.com/botframework.com/oauth2/v2.0/token";
     sent_headers := None;
     data := FormData
               [ ("client_id", BotFramework.app_id self);
                 ("client_secret", BotFramework.app_password self);
                 ("grant_type", PStr "client_credentials");
                 ("scope", PStr "https://api.botframework.com/.default") ] |}.

(** what [_get_headers] does with the outcome of its token request *)
Definition after_token_response (outcome : result Response)
  : M (option (list (string * string))) :=
  token_response <- lift outcome ;;
  if ok token_response then
    token_data <- lift (json token_response) ;;
    access_token <- lift (Py.getitem token_data "access_token") ;;
    token_expiration <- lift (Py.getitem token_data "expires_in") ;;
    seconds <- lift (Py.int token_expiration) ;;
    delta <- lift (timedelta_seconds seconds) ;;
    t2 <- now ;;
    expiration' <- lift (datetime_add t2 delta) ;;
    set_token_expiration_date expiration' ;;
    set_headers
      (Some [ ("content-type", "application/json");
              ("Authorization", "Bearer " +:+ Py.str access_token) ]) ;;
    get_headers_attr
  else
    log ERROR (Plain "Could not get BotFramework token") ;;
    ret None.

(** ** The webhook *)

(** what the [except] clause and the final [return] make of the outcome of
    the [try] block *)
Definition acknowledge (outcome : result unit * World)
  : result HTTPResponse * World :=
  match outcome with
  | (Ok _, st) => (Ok (response_text "success"), st)
  | (Raise e, st) =>
      (Ok (response_text "success"),
       with_trace
         (trace st
          ++ [ Logged ERROR
                 (WithException "Exception when trying to handle message.{0}" e);
               Logged DEBUG (Traceback e) ])
         st)
  end.

(** [d.get(k)], with [None] for a missing key *)
Definition get_or_none (k : string) (d : pydict) : pyval :=
  match Py.dict_get k d with Some v => v | None => PNone end.

(** the message the webhook builds from an activity whose fields it could
    read, following the three cases of the classification *)
Definition normalized (self : BotFrameworkInput.t) (activity : pydict)
  (conversation recipient service_url sender_id value : pyval)
  : UserMessage.t :=
  let attachments := get_or_none "attachments" activity in
  let text := get_or_none "text" activity in
  {| UserMessage.text :=
       if Py.truthy attachments
       then (if Py.truthy text then text else PStr "")
       else if Py.truthy text then text
       else PStr (Py.json_dumps value);
     UserMessage.metadata :=
       if Py.truthy attachments
       then PDict [("attachments", attachments)]
       else PNone;
     UserMessage.sender_id := sender_id;
     UserMessage.input_channel := "botframework";
     UserMessage.output_channel :=
       {| BotFramework.app_id := BotFrameworkInput.app_id self;
          BotFramework.app_password := BotFrameworkInput.app_password self;
          BotFramework.conversation := conversation;
          BotFramework.global_uri := Py.str service_url +:+ "v3/";
          BotFramework.bot := recipient |} |}.

(** [postdata["from"]["id"]] *)
Definition sender_of (postdata : pyval) : result pyval :=
  match Py.getitem postdata "from" with
  | Ok sender => Py.getitem sender "id"
  | Raise e => Raise e
  end.

Definition is_log (e : Event) : Prop :=
  match e with
  | Logged _ _ => True
  | Posted _ => False
  end.

(** ** Deliveries *)

(** A successful answer to the token request carries a token and a
    lifetime that [int] and [timedelta] accept. *)
Definition grants (r : Response) : bool :=
  match json r with
  | Ok token_data =>
      match Py.getitem token_data "access_token",
            Py.getitem token_data "expires_in" with
      | Ok _, Ok lifetime =>
          match Py.int lifetime with
          | Ok seconds =>
              match timedelta_seconds seconds with
              | Ok _ => true
              | Raise _ => false
              end
          | Raise _ => false
          end
      | _, _ => false
      end
  | Raise _ => false
  end.

(** [st'] is [st] after the events [evs]; the objects of the heap, the
    clock and the network are the same. *)
Definition follows (st st' : World) (evs : list Event) : Prop :=
  trace st' = trace st ++ evs
  /\ heap st' = heap st
  /\ clock st' = clock st
  /\ server st' = server st.

(** the address activities are posted to *)
Definition activities_uri (self : BotFramework.t) (conversation_id : pyval)
  : string :=
  BotFramework.global_uri self +:+ "conversations/"
    +:+ Py.str conversation_id +:+ "/activities".

(** ** Payloads *)

(** the fields [prepare_message] starts from *)
Definition default_fields (self : BotFramework.t) (recipient_id : pyval)
  : pydict :=
  [ ("type", PStr "message");
    ("recipient", PDict [("id", recipient_id)]);
    ("from", BotFramework.bot self);
    ("channelData", PDict [("notification", PDict [("alert", PStr "true")])]);
    ("text", PStr "") ].

(** ** Defaults filled in place *)

(** [fill k v d]: [d], with [v] under [k] when [d] has no [k] *)
Definition fill (k : string) (v : pyval) (d : pydict) : pydict :=
  match Py.dict_get k d with
  | Some _ => d
  | None => d ++ [(k, v)]
  end.

(** [fill_in k f d]: [d], where the dict under [k], an empty one when [d]
    has no [k], is replaced by what [f] makes of it *)
Definition fill_in (k : string) (f : pydict -> pydict) (d : pydict) : pydict :=
  let d' := fill k (PDict []) d in
  match Py.dict_get k d' with
  | Some (PDict inner) => Py.dict_set k (PDict (f inner)) d'
  | _ => d'
  end.

(** The message after a fill-if-absent merge, field by field, of [type],
    [recipient.id], [from], [channelData.notification.alert] and [text]:
    what the calls of [send_custom_json] are meant to leave. *)
Definition with_defaults (self : BotFramework.t) (recipient_id : pyval)
  (d : pydict) : pydict :=
  fill "text" (PStr "")
    (fill_in "channelData"
       (fill_in "notification" (fill "alert" (PStr "true")))
       (fill "from" (BotFramework.bot self)
          (fill_in "recipient" (fill "id" recipient_id)
             (fill "type" (PStr "message") d)))).

Definition dict_or_absent (v : option pyval) : bool :=
  match v with
  | Some (PDict _) | None => true
  | Some _ => false
  end.

(** [recipient], [channelData] and [channelData.notification] are dicts
    where the message has them. *)
Definition fillable (d : pydict) : bool :=
  dict_or_absent (Py.dict_get "recipient" d)
  && match Py.dict_get "channelData" d with
     | Some (PDict c) => dict_or_absent (Py.dict_get "notification" c)
     | Some _ => false
     | None => true
     end.

(** [o.setdefault(k, v)] for the dict at path [p] of the object [o]: the
    object afterwards, or nothing when there is no dict at [p] *)
Definition obj_setdefault (o : pyval) (p : list string) (k : string)
  (v : pyval) : option pyval :=
  match read_path o p with
  | Some (PDict d) =>
      match Py.dict_get k d with
      | Some _ => Some o
      | None => Some (write_path o p (PDict (d ++ [(k, v)])))
      end
  | _ => None
  end.

(** the calls of [send_custom_json], as path, key and default *)
Definition custom_steps (self : BotFramework.t) (recipient_id : pyval)
  : list (list string * string * pyval) :=
  [ ([], "type", PStr "message");
    ([], "recipient", PDict []);
    (["recipient"], "id", recipient_id);
    ([], "from", BotFramework.bot self);
    ([], "channelData", PDict []);
    (["channelData"], "notification", PDict []);
    (["channelData"; "notification"], "alert", PStr "true");
    ([], "text", PStr "") ].

(** the object after the calls, and whether all of them went through *)
Fixpoint run_defaults (steps : list (list string * string * pyval))
  (o : pyval) : pyval * bool :=
  match steps with
  | [] => (o, true)
  | (p, k, v) :: rest =>
      match obj_setdefault o p k v with
      | Some o' => run_defaults rest o'
      | None => (o, false)
      end
  end.

(** the test [fillable] makes of the dict under [k1] *)
Definition nested_dicts (k1 k2 : string) (d : pydict) : bool :=
  match Py.dict_get k1 d with
  | Some (PDict c) => dict_or_absent (Py.dict_get k2 c)
  | Some _ => false
  | None => true
  end.

(** the world where the object at [a] is [o] *)
Definition holding (a : nat) (o : pyval) (st : World) : World :=
  with_heap (<[a := o]> (heap st)) st.

Definition is_dict (v : pyval) : bool :=
  match v with PDict _ => true | _ => false end.

(** ** Splitting a text *)

(** [s] without its first [n] characters *)
Fixpoint drop_chars (n : nat) (s : string) : string :=
  match n, s with
  | S n', String _ s' => drop_chars n' s'
  | _, _ => s
  end.

(** ** Further vocabulary *)

(** the header map [_get_headers] caches for a token *)
Definition bearer (access_token : pyval) : list (string * string) :=
  [ ("content-type", "application/json");
    ("Authorization", "Bearer " +:+ Py.str access_token) ].

(** the request [send] posts for a message *)
Definition activity_request (self : BotFramework.t) (conversation_id : pyval)
  (h : option (list (string * string))) (message_data : pyval)
  : HttpRequest :=
  {| uri := activities_uri self conversation_id;
     sent_headers := h;
     data := TextData (Py.json_dumps message_data) |}.

(** The cached token is good at each of the next [n] readings of the
    clock: none of them is past the expiration date. *)
Definition token_valid (st : World) (n : nat) : Prop :=
  forall i : nat, (i < n)%nat ->
    clock st (ticks st + i) <= token_expiration_date st.

(** [requests.post] returns a response for every activity posted to the
    conversation under the cached headers: the address has a scheme, and
    whatever happened before, the post is answered. *)
Definition activities_answered (self : BotFramework.t)
  (conversation_id : pyval) (st : World) : Prop :=
  http_url (activities_uri self conversation_id) = true
  /\ forall (tr : list Event) (message_data : pyval),
       exists response : Response,
         server st tr
           (activity_request self conversation_id (headers st) message_data)
         = Ok response.

(** what [send] appends to the trace when its post is answered *)
Definition sent (request : HttpRequest) (response : Response) : list Event :=
  Posted request
  :: (if ok response then []
      else [Logged ERROR
              (WithText
                 "Error trying to send botframework messge. Response: %s"
                 (text response))]).

(** whether [sep] begins somewhere inside [u], in the text [u] followed by
    [s] *)
Fixpoint begins_inside (sep u s : string) : bool :=
  match u with
  | EmptyString => false
  | String c u' => Py.starts_with sep (u +:+ s) || begins_inside sep u' s
  end.

(** whether [sep] occurs in [s] *)
Definition occurs (sep s : string) : bool := begins_inside sep s EmptyString.

(** the hero card of [send_image_url] *)
Definition image_card (image : pyval) : pyval :=
  PDict [ ("contentType", PStr "application/vnd.microsoft.card.hero");
          ("content", PDict [("images", PList [PDict [("url", image)]])]) ].

(** the hero card of [send_text_with_buttons] *)
Definition buttons_card (text buttons : pyval) : pyval :=
  PDict [ ("contentType", PStr "application/vnd.microsoft.card.hero");
          ("content", PDict [("subtitle", text); ("buttons", buttons)]) ].

(** the keys [prepare_message] starts from *)
Definition default_keys : list string :=
  ["type"; "recipient"; "from"; "channelData"; "text"].

(** a backend that answers a text message with the same text, through the
    output channel of the message *)
Definition echo_handler (m : UserMessage.t) : M unit :=
  match UserMessage.text m with
  | PStr t =>
      BotFramework.send_text_message (UserMessage.output_channel m)
        (UserMessage.sender_id m) t
  | _ => ret tt
  end.

(** ** Sample values *)

(** a service that grants a token for an hour and accepts every activity *)
Definition granting_server (_ : list Event) (_ : HttpRequest)
  : result Response :=
  Ok {| ok := true;
        text := "";
        json := Ok (PDict [ ("access_token", PStr "abc");
                            ("expires_in", PInt 3600) ]) |}.

(** a service that refuses everything *)
Definition refusing_server (_ : list Event) (_ : HttpRequest)
  : result Response :=
  Ok {| ok := false; text := "denied"; json := Raise ValueError |}.

(** the state right after the class was created at time 1000, under a clock
    that advances by a second with every reading *)
Definition sample_world (srv : list Event -> HttpRequest -> result Response)
  : World :=
  {| token_expiration_date := 1000;
     headers := None;
     heap := ∅;
     trace := [];
     ticks := 1;
     clock := fun n => 1000 + 1000000 * Z.of_nat n;
     server := srv |}.

Definition sample_input : BotFrameworkInput.t :=
  {| BotFrameworkInput.app_id := PStr "app";
     BotFrameworkInput.app_password := PStr "secret" |}.

Definition sample_channel : BotFramework.t :=
  BotFramework.__init__ (PStr "app") (PStr "secret")
    (PDict [("id", PStr "c1")]) (PDict [("id", PStr "bot")])
    (PStr "https://smba.example/").

(** a backend handler that leaves a record of the message it was given *)
Definition recording_handler (m : UserMessage.t) : M unit :=
  log INFO
    (Dump (PDict [ ("text", UserMessage.text m);
                   ("metadata", UserMessage.metadata m);
                   ("sender_id", UserMessage.sender_id m) ])).

(** a backend handler that fails *)
Definition failing_handler (m : UserMessage.t) : M unit :=
  raise (Failure "backend").

(** a text message that names no sender *)
Definition anonymous_activity : pydict :=
  [ ("type", PStr "message");
    ("conversation", PDict [("id", PStr "c1")]);
    ("recipient", PDict [("id", PStr "bot")]);
    ("serviceUrl", PStr "https://smba.example/");
    ("text", PStr "hello") ].

(** the state an hour-long token leaves behind, read a second later *)
Definition cached_world : World :=
  {| token_expiration_date := 3600000000;
     headers := Some [ ("content-type", "application/json");
                       ("Authorization", "Bearer abc") ];
     heap := ∅;
     trace := [];
     ticks := 1;
     clock := fun n => 1000 + 1000000 * Z.of_nat n;
     server := refusing_server |}.

(** [s] between double quotes *)
Definition quoted (s : string) : string :=
  String "034" (s +:+ String "034" EmptyString).

(** a card submission: neither text nor attachments, a [value] *)
Definition submit_activity : pydict :=
  [ ("type", PStr "message");
    ("conversation", PDict [("id", PStr "c1")]);
    ("recipient", PDict [("id", PStr "bot")]);
    ("serviceUrl", PStr "https://smba.example/");
    ("from", PDict [("id", PStr "user")]);
    ("value", PDict [("foo", PInt 1)]) ].

(** the caller's message, at address 0 of the heap *)
Definition with_message (d : pydict) : World :=
  holding 0 (PDict d) (sample_world granting_server).


(** an activity with a picture and an empty text *)
Definition picture_activity : pydict :=
  [ ("type", PStr "message");
    ("conversation", PDict [("id", PStr "c1")]);
    ("recipient", PDict [("id", PStr "bot")]);
    ("serviceUrl", PStr "https://smba.example/");
    ("from", PDict [("id", PStr "user")]);
    ("text", PStr "");
    ("attachments", PList [PDict [("contentUrl", PStr "https://x/y.png")]]) ].

(** a service whose tokens last no time at all *)
Definition hasty_server (_ : list Event) (_ : HttpRequest)
  : result Response :=
  Ok {| ok := true;
        text := "";
        json := Ok (PDict [ ("access_token", PStr "abc");
                            ("expires_in", PInt 0) ]) |}.

(** a service that answers with a success and an empty object *)
Definition hollow_server (_ : list Event) (_ : HttpRequest)
  : result Response :=
  Ok {| ok := true; text := "{}"; json := Ok (PDict []) |}.

(** a service whose tokens last a million million seconds *)
Definition lavish_server (_ : list Event) (_ : HttpRequest)
  : result Response :=
  Ok {| ok := true;
        text := "";
        json := Ok (PDict [ ("access_token", PStr "abc");
                            ("expires_in", PInt 1000000000000) ]) |}.

(** the state an hour-long token leaves behind, read a second later, with
    a service that accepts every activity *)
Definition ready_world : World :=
  {| token_expiration_date := 3600000000;
     headers := Some [ ("content-type", "application/json");
                       ("Authorization", "Bearer abc") ];
     heap := ∅;
     trace := [];
     ticks := 1;
     clock := fun n => 1000 + 1000000 * Z.of_nat n;
     server := granting_server |}.

(** the caller's message at address 0, in the state with a token *)
Definition ready_with_message (d : pydict) : World :=
  holding 0 (PDict d) ready_world.

(** the class is created, and read again, within one reading of a clock
    that stands at 1000 *)
Definition newborn_world : World :=
  snd (BotFramework.class_body
         {| token_expiration_date := 0;
            headers := None;
            heap := ∅;
            trace := [];
            ticks := 0;
            clock := fun _ => 1000;
            server := granting_server |}).

(** a channel built from an activity whose [serviceUrl] names no scheme *)
Definition schemeless_channel : BotFramework.t :=
  BotFramework.__init__ (PStr "app") (PStr "secret")
    (PDict [("id", PStr "c1")]) (PDict [("id", PStr "bot")])
    (PStr "smba.example/").

(** a channel built from an activity whose conversation has no id *)
Definition lost_channel : BotFramework.t :=
  BotFramework.__init__ (PStr "app") (PStr "secret") (PDict [])
    (PDict [("id", PStr "bot")]) (PStr "https://smba.example/").

(** a text message from the user *)
Definition hello_activity : pydict :=
  anonymous_activity ++ [("from", PDict [("id", PStr "user")])].

(** * Properties *)

(** ** Traces *)

Lemma posts_app (tr1 tr2 : list Event) :
  posts (tr1 ++ tr2) = posts tr1 ++ posts tr2.
Proof.
  induction tr1 as [|[r|lvl m] tr1 IH]; simpl; [reflexivity | | assumption].
  now rewrite IH.
Qed.

Lemma deliveries_app (tr1 tr2 : list Event) :
  deliveries (tr1 ++ tr2) = deliveries tr1 ++ deliveries tr2.
Proof.
  induction tr1 as [|[r|lvl m] tr1 IH]; simpl; [reflexivity | | assumption].
  destruct (data r); simpl; now rewrite IH.
Qed.

(** ** The token cache *)

Lemma get_headers_fresh (self : BotFramework.t) (st : World) :
  clock st (ticks st) <= token_expiration_date st ->
  BotFramework._get_headers self st
  = (Ok (headers st), with_ticks (S (ticks st)) st).
Proof.
  intros Hfresh.
  unfold BotFramework._get_headers, bind, get_token_expiration_date, now.
  destruct (Z.ltb_spec (token_expiration_date st) (clock st (ticks st)));
    [lia | reflexivity].
Qed.

(** C1. While the expiration date of the cached token lies strictly in the
    future, [_get_headers] returns the cached header map as it is and posts
    nothing: the class attributes and the trace are the same afterwards
    (only the clock was read).  Hence any number of such calls in a row
    return the same header map, and so the same Authorization value. *)
Theorem get_headers_reuses_cached_token
  (self : BotFramework.t) (st : World) (n : nat) :
  (forall i : nat, (i <= n)%nat ->
     clock st (ticks st + i) < token_expiration_date st) ->
  BotFramework._get_headers self st
  = (Ok (headers st), with_ticks (S (ticks st)) st)
  /\ trace (snd (BotFramework._get_headers self st)) = trace st
  /\ repeatedly n (BotFramework._get_headers self) st
     = (Ok (repeat (headers st) n), with_ticks (ticks st + n) st).
Proof.
  intros Hfuture.
  assert (Hone : BotFramework._get_headers self st
                 = (Ok (headers st), with_ticks (S (ticks st)) st)).
  { apply get_headers_fresh.
    specialize (Hfuture O (Nat.le_0_l n)).
    rewrite Nat.add_0_r in Hfuture. lia. }
  split; [exact Hone|]. split; [now rewrite Hone|].
  clear Hone. revert st Hfuture.
  induction n as [|n IH]; intros st Hfuture.
  - simpl. unfold ret. rewrite Nat.add_0_r. now destruct st.
  - simpl. unfold bind at 1.
    rewrite get_headers_fresh.
    2:{ specialize (Hfuture O (Nat.le_0_l _)).
        rewrite Nat.add_0_r in Hfuture. lia. }
    unfold bind at 1. rewrite IH.
    + unfold ret. simpl. f_equal. unfold with_ticks. simpl.
      f_equal. lia.
    + intros i Hi. simpl.
      specialize (Hfuture (S i) ltac:(lia)).
      now replace (ticks st + S i)%nat with (S (ticks st + i)) in Hfuture by lia.
Qed.

Lemma get_headers_expired (self : BotFramework.t) (st : World) :
  token_expiration_date st < clock st (ticks st) ->
  BotFramework._get_headers self st
  = after_token_response (server st (trace st) (token_request self))
      (with_trace (trace st ++ [Posted (token_request self)])
         (with_ticks (S (ticks st)) st)).
Proof.
  intros Hexpired.
  unfold BotFramework._get_headers, bind, get_token_expiration_date, now.
  destruct (Z.ltb_spec (token_expiration_date st) (clock st (ticks st)));
    [reflexivity | lia].
Qed.

Lemma timedelta_seconds_ok (n : Z) :
  -999999999 <= n / 86400 <= 999999999 ->
  timedelta_seconds n = Ok (n * 1000000).
Proof.
  intros [Hlow Hhigh]. unfold timedelta_seconds.
  destruct (Z.leb_spec (-999999999) (n / 86400)); [|lia].
  destruct (Z.leb_spec (n / 86400) 999999999); [reflexivity | lia].
Qed.

Lemma datetime_add_ok (t delta : Z) :
  0 <= t + delta <= datetime_max -> datetime_add t delta = Ok (t + delta).
Proof.
  intros [Hlow Hhigh]. unfold datetime_add.
  destruct (Z.leb_spec 0 (t + delta)); [|lia].
  destruct (Z.leb_spec (t + delta) datetime_max); [reflexivity | lia].
Qed.

Lemma datetime_add_out (t delta : Z) :
  ~ 0 <= t + delta <= datetime_max ->
  datetime_add t delta = Raise OverflowError.
Proof.
  intros Hout. unfold datetime_add.
  destruct (Z.leb_spec 0 (t + delta)); [|reflexivity].
  destruct (Z.leb_spec (t + delta) datetime_max); [lia | reflexivity].
Qed.

Lemma datetime_add_sound (t delta date : Z) :
  datetime_add t delta = Ok date ->
  date = t + delta /\ 0 <= date <= datetime_max.
Proof.
  unfold datetime_add.
  destruct (Z.leb_spec 0 (t + delta)); [|discriminate].
  destruct (Z.leb_spec (t + delta) datetime_max); [|discriminate].
  intros [= <-]. lia.
Qed.

Lemma timedelta_seconds_sound (n delta : Z) :
  timedelta_seconds n = Ok delta -> delta = n * 1000000.
Proof.
  unfold timedelta_seconds.
  destruct (_ && _); [now intros [= <-] | discriminate].
Qed.

(** the cases of [after_token_response], one goal for each way it ends *)
Ltac token_cases :=
  unfold after_token_response, bind, lift, now; cbv beta iota;
  repeat (match goal with
          | |- context [server ?st ?tr ?r] => destruct (server st tr r)
          | |- context [ok ?r] => destruct (ok r)
          | |- context [json ?r] => destruct (json r)
          | |- context [Py.getitem ?d ?k] => destruct (Py.getitem d k)
          | |- context [Py.int ?v] => destruct (Py.int v)
          | |- context [timedelta_seconds ?n] =>
              destruct (timedelta_seconds n)
          | |- context [datetime_add ?t ?d] => destruct (datetime_add t d)
          end; cbv beta iota).

Lemma get_headers_posts_once (self : BotFramework.t) (st : World) :
  token_expiration_date st < clock st (ticks st) ->
  posts (trace (snd (BotFramework._get_headers self st)))
  = posts (trace st) ++ [token_request self].
Proof.
  intros Hexpired. rewrite get_headers_expired by assumption.
  token_cases; cbn; rewrite ?posts_app; cbn; now rewrite ?app_nil_r.
Qed.

Lemma get_headers_granted (self : BotFramework.t) (st : World)
  (response : Response) (token_data : pydict) (access_token lifetime : pyval)
  (seconds : Z) :
  token_expiration_date st < clock st (ticks st) ->
  server st (trace st) (token_request self) = Ok response ->
  ok response = true ->
  json response = Ok (PDict token_data) ->
  Py.dict_get "access_token" token_data = Some access_token ->
  Py.dict_get "expires_in" token_data = Some lifetime ->
  Py.int lifetime = Ok seconds ->
  -999999999 <= seconds / 86400 <= 999999999 ->
  0 <= clock st (S (ticks st)) + seconds * 1000000 <= datetime_max ->
  BotFramework._get_headers self st
  = (Ok (Some (bearer access_token)),
     with_cache (clock st (S (ticks st)) + seconds * 1000000)
       (Some (bearer access_token))
       (with_trace (trace st ++ [Posted (token_request self)])
          (with_ticks (S (S (ticks st))) st))).
Proof.
  intros Hexpired Hanswer Hok Hjson Htoken Hlifetime Hint Hdelta Hdate.
  rewrite get_headers_expired by assumption. rewrite Hanswer.
  unfold after_token_response, bind, lift.
  rewrite Hok, Hjson. cbn [Py.getitem].
  rewrite Htoken, Hlifetime, Hint, (timedelta_seconds_ok _ Hdelta).
  cbn [now clock ticks with_trace with_ticks].
  now rewrite (datetime_add_ok _ _ Hdate).
Qed.

(** C2, as the code has it.  When the cached expiration date lies strictly
    before the reading of the clock (which is also how an absent token
    shows once the clock has moved: the class is created with the date of
    its creation and no headers), [_get_headers] posts exactly one request,
    to the Microsoft identity service, with the form fields client_id,
    client_secret, grant_type and scope, whatever comes of it.  When the
    post is answered with a success whose body is an object that carries
    [access_token] and an [expires_in] that [int] accepts, and the clock
    reading taken then plus [expires_in] seconds is a date of the
    calendar, that date becomes the expiration date, and the header map
    with the bearer token is cached and returned.  (On the instant of the
    expiration date itself nothing is requested: see
    [get_headers_absent_token_same_instant].) *)
Theorem get_headers_refreshes_expired_token
  (self : BotFramework.t) (st : World) (response : Response)
  (token_data : pydict) (access_token expires_in : pyval) (seconds : Z) :
  let fresh :=
    Some [ ("content-type", "application/json");
           ("Authorization", "Bearer " +:+ Py.str access_token) ] in
  token_expiration_date st < clock st (ticks st) ->
  posts (trace (snd (BotFramework._get_headers self st)))
  = posts (trace st) ++ [token_request self]
  /\ (server st (trace st) (token_request self) = Ok response ->
      ok response = true ->
      json response = Ok (PDict token_data) ->
      Py.dict_get "access_token" token_data = Some access_token ->
      Py.dict_get "expires_in" token_data = Some expires_in ->
      Py.int expires_in = Ok seconds ->
      -999999999 <= seconds / 86400 <= 999999999 ->
      0 <= clock st (S (ticks st)) + seconds * 1000000 <= datetime_max ->
      BotFramework._get_headers self st
      = (Ok fresh,
         {| token_expiration_date :=
              clock st (S (ticks st)) + seconds * 1000000;
            headers := fresh;
            heap := heap st;
            trace := trace st ++ [Posted (token_request self)];
            ticks := S (S (ticks st));
            clock := clock st;
            server := server st |})).
Proof.
  intros fresh Hexpired.
  split; [now apply get_headers_posts_once|].
  intros Hanswer Hok Hjson Htoken Hexpires Hint Hdelta Hdate.
  now rewrite (get_headers_granted self st response token_data access_token
                 expires_in seconds).
Qed.

Lemma get_headers_refused (self : BotFramework.t) (st : World)
  (response : Response) :
  token_expiration_date st < clock st (ticks st) ->
  server st (trace st) (token_request self) = Ok response ->
  ok response = false ->
  BotFramework._get_headers self st
  = (Ok None,
     with_trace
       (trace st
        ++ [ Posted (token_request self);
             Logged ERROR (Plain "Could not get BotFramework token") ])
       (with_ticks (S (ticks st)) st)).
Proof.
  intros Hexpired Hanswer Hfail.
  rewrite get_headers_expired by assumption. rewrite Hanswer.
  unfold after_token_response, bind, lift. rewrite Hfail.
  unfold log, ret, with_trace. cbn. now rewrite <- app_assoc.
Qed.

(** C3. When the identity service answers the token request with a status
    that is not a success, [_get_headers] logs an error and returns [None]:
    no header map for the caller.  The cached expiration date and header
    map are what they were, so no token has been cached. *)
Theorem get_headers_failure_keeps_cache
  (self : BotFramework.t) (st : World) (response : Response) :
  token_expiration_date st < clock st (ticks st) ->
  server st (trace st) (token_request self) = Ok response ->
  ok response = false ->
  BotFramework._get_headers self st
  = (Ok None,
     {| token_expiration_date := token_expiration_date st;
        headers := headers st;
        heap := heap st;
        trace := trace st
                 ++ [ Posted (token_request self);
                      Logged ERROR (Plain "Could not get BotFramework token") ];
        ticks := S (ticks st);
        clock := clock st;
        server := server st |}).
Proof.
  intros Hexpired Hanswer Hfail.
  now rewrite (get_headers_refused self st response).
Qed.

(** X17. An absent token is an expired one: the class starts with the
    date of its creation and no headers, so the first call made after the
    clock has moved on asks for a token. *)
Lemma absent_token_is_expired (self : BotFramework.t) (st : World) :
  clock st (ticks st) < clock st (S (ticks st)) ->
  let st0 := snd (BotFramework.class_body st) in
  headers st0 = None
  /\ token_expiration_date st0 < clock st0 (ticks st0)
  /\ posts (trace (snd (BotFramework._get_headers self st0)))
     = posts (trace st) ++ [token_request self].
Proof.
  intros Hlater st0.
  assert (Hexpired : token_expiration_date st0 < clock st0 (ticks st0))
    by exact Hlater.
  split; [reflexivity|]. split; [exact Hexpired|].
  now rewrite get_headers_posts_once.
Qed.

(** ** The webhook *)

Lemma webhook_decoded (self : BotFrameworkInput.t)
  (on_new_message : UserMessage.t -> M unit) (postdata : pyval) (st : World) :
  BotFrameworkInput.webhook self on_new_message
    {| Request.json := Ok postdata |} st
  = acknowledge (BotFrameworkInput.handle self on_new_message postdata st).
Proof.
  unfold BotFrameworkInput.webhook, acknowledge, bind, lift, try_except.
  cbn [Request.json].
  destruct (BotFrameworkInput.handle self on_new_message postdata st)
    as [[[]|e] st']; cbn; [reflexivity|].
  unfold with_trace. cbn. now rewrite <- app_assoc.
Qed.

Lemma eq_str_false (v : pyval) (s : string) :
  v <> PStr s -> Py.eq_str v s = false.
Proof.
  intros Hne. destruct v; cbn; try reflexivity.
  destruct (String.eqb_spec s0 s); [subst; contradiction | reflexivity].
Qed.

(** C8. An activity whose [type] is not ["message"] is logged and
    acknowledged, and nothing else happens: the state after the request is
    the state before plus one log record, whatever the backend handler is
    and whether or not the activity has the fields a channel would be built
    from.  So no channel is built and [on_new_message] is not called. *)
Theorem webhook_ignores_other_activity_types
  (self : BotFrameworkInput.t) (on_new_message : UserMessage.t -> M unit)
  (postdata activity_type : pyval) (st : World) :
  Py.getitem postdata "type" = Ok activity_type ->
  activity_type <> PStr "message" ->
  BotFrameworkInput.webhook self on_new_message
    {| Request.json := Ok postdata |} st
  = (Ok (response_text "success"),
     with_trace
       (trace st ++ [Logged INFO (Plain "Not received message type")]) st).
Proof.
  intros Htype Hother. rewrite webhook_decoded.
  unfold BotFrameworkInput.handle, bind, lift.
  rewrite Htype, (eq_str_false _ _ Hother).
  reflexivity.
Qed.

(** C5, as the code has it.  Take an activity of type ["message"] from
    which [conversation], [recipient], [serviceUrl] and [from.id] can be
    read, and also [value] when neither [attachments] nor [text] is truthy.
    Then the webhook calls the backend handler, once, on a message whose
    sender is [from.id] and whose content follows the order of the
    classification: with truthy attachments, the text if it is truthy and
    the empty string otherwise, and the attachments as metadata; else a
    truthy text, without metadata; else the JSON text of [value], without
    metadata.  The request is acknowledged whatever the handler does. *)
Theorem webhook_classifies_message
  (self : BotFrameworkInput.t) (on_new_message : UserMessage.t -> M unit)
  (st : World) (activity : pydict)
  (conversation recipient service_url sender sender_id value : pyval) :
  Py.dict_get "type" activity = Some (PStr "message") ->
  Py.dict_get "conversation" activity = Some conversation ->
  Py.dict_get "recipient" activity = Some recipient ->
  Py.dict_get "serviceUrl" activity = Some service_url ->
  Py.dict_get "from" activity = Some sender ->
  Py.getitem sender "id" = Ok sender_id ->
  (Py.truthy (get_or_none "attachments" activity) = false ->
   Py.truthy (get_or_none "text" activity) = false ->
   Py.dict_get "value" activity = Some value) ->
  BotFrameworkInput.webhook self on_new_message
    {| Request.json := Ok (PDict activity) |} st
  = acknowledge
      (on_new_message
         (normalized self activity conversation recipient service_url
            sender_id value)
         (with_trace (trace st ++ [Logged DEBUG (Dump (PDict activity))]) st)).
Proof.
  intros Htype Hconversation Hrecipient Hurl Hfrom Hid Hvalue.
  rewrite webhook_decoded. f_equal.
  unfold BotFrameworkInput.handle, normalized, get_or_none in *.
  unfold bind, lift, log, ret. cbn [Py.getitem Py.get].
  rewrite Htype. cbn [Py.eq_str String.eqb Ascii.eqb Bool.eqb].
  rewrite Hconversation, Hrecipient, Hurl.
  destruct (Py.dict_get "attachments" activity) as [attachments|];
    destruct (Py.dict_get "text" activity) as [text|];
    try destruct (Py.truthy attachments) eqn:Hattachments;
    try destruct (Py.truthy text) eqn:Htext;
    cbn [Py.truthy] in *;
    rewrite ?Hattachments, ?Htext, ?Hfrom, ?Hid, ?(Hvalue eq_refl eq_refl);
    reflexivity.
Qed.

Lemma handle_without_sender (self : BotFrameworkInput.t) (postdata : pyval)
  (st : World) :
  (forall v, sender_of postdata <> Ok v) ->
  exists (r : result unit) (logs : list Event),
    Forall is_log logs
    /\ forall on_new_message : UserMessage.t -> M unit,
         BotFrameworkInput.handle self on_new_message postdata st
         = (r, with_trace (trace st ++ logs) st).
Proof.
  intros Hmissing.
  assert (Hsame : with_trace (trace st ++ []) st = st).
  { rewrite app_nil_r. now destruct st. }
  unfold BotFrameworkInput.handle, bind, lift, log, ret.
  destruct (Py.getitem postdata "type") as [activity_type|e].
  2:{ exists (Raise e), []. rewrite Hsame. now split. }
  destruct (Py.eq_str activity_type "message").
  2:{ exists (Ok tt), [Logged INFO (Plain "Not received message type")].
      split; [repeat constructor | reflexivity]. }
  destruct (Py.getitem postdata "conversation") as [conversation|e].
  2:{ exists (Raise e), []. rewrite Hsame. now split. }
  destruct (Py.getitem postdata "recipient") as [recipient|e].
  2:{ exists (Raise e), []. rewrite Hsame. now split. }
  destruct (Py.getitem postdata "serviceUrl") as [service_url|e].
  2:{ exists (Raise e), []. rewrite Hsame. now split. }
  cbn [trace with_trace].
  assert (Hfrom : exists e,
             match Py.getitem postdata "from" with
             | Ok sender => Py.getitem sender "id"
             | Raise e => Raise e
             end = Raise e).
  { fold (sender_of postdata).
    destruct (sender_of postdata) as [v|e] eqn:Hs;
      [now destruct (Hmissing v) | now exists e]. }
  destruct Hfrom as [e0 Hfrom].
  assert (Hlogged : Forall is_log [Logged DEBUG (Dump postdata)])
    by (repeat constructor).
  destruct (Py.get postdata "attachments") as [attachments|e].
  2:{ exists (Raise e), [Logged DEBUG (Dump postdata)]. now split. }
  destruct (Py.truthy attachments).
  - destruct (Py.get postdata "text") as [has_text|e].
    2:{ exists (Raise e), [Logged DEBUG (Dump postdata)]. now split. }
    destruct (Py.truthy has_text).
    + destruct (Py.getitem postdata "text") as [text|e].
      2:{ exists (Raise e), [Logged DEBUG (Dump postdata)]. now split. }
      destruct (Py.getitem postdata "attachments") as [attached|e].
      2:{ exists (Raise e), [Logged DEBUG (Dump postdata)]. now split. }
      exists (Raise e0), [Logged DEBUG (Dump postdata)].
      split; [assumption|]. intros h.
      destruct (Py.getitem postdata "from"); [now rewrite Hfrom | congruence].
    + destruct (Py.getitem postdata "attachments") as [attached|e].
      2:{ exists (Raise e), [Logged DEBUG (Dump postdata)]. now split. }
      exists (Raise e0), [Logged DEBUG (Dump postdata)].
      split; [assumption|]. intros h.
      destruct (Py.getitem postdata "from"); [now rewrite Hfrom | congruence].
  - destruct (Py.get postdata "text") as [has_text|e].
    2:{ exists (Raise e), [Logged DEBUG (Dump postdata)]. now split. }
    destruct (Py.truthy has_text).
    + destruct (Py.getitem postdata "text") as [text|e].
      2:{ exists (Raise e), [Logged DEBUG (Dump postdata)]. now split. }
      exists (Raise e0), [Logged DEBUG (Dump postdata)].
      split; [assumption|]. intros h.
      destruct (Py.getitem postdata "from"); [now rewrite Hfrom | congruence].
    + destruct (Py.getitem postdata "value") as [value|e].
      2:{ exists (Raise e), [Logged DEBUG (Dump postdata)]. now split. }
      exists (Raise e0), [Logged DEBUG (Dump postdata)].
      split; [assumption|]. intros h.
      destruct (Py.getitem postdata "from"); [now rewrite Hfrom | congruence].
Qed.

(** C4, as the code has it.  For every request whose body [request.json]
    decodes, to any JSON value at all, the route answers 200 with the plain
    text [success].  An exception raised inside the [try] block, while the
    fields are read, the content classified or the handler run, is caught
    and logged, at error level and with its traceback at debug level.  When
    [from.id] cannot be read, the outcome is the same for every backend
    handler and adds log records only: [on_new_message] is not called.
    ([request.json] is read before the [try] block: see
    [webhook_undecodable_body].) *)
Theorem webhook_acknowledges_decoded_body
  (self : BotFrameworkInput.t) (on_new_message : UserMessage.t -> M unit)
  (postdata : pyval) (st : World) :
  fst (BotFrameworkInput.webhook self on_new_message
         {| Request.json := Ok postdata |} st)
  = Ok (response_text "success")
  /\ (forall (e : exn) (st' : World),
        BotFrameworkInput.handle self on_new_message postdata st
        = (Raise e, st') ->
        BotFrameworkInput.webhook self on_new_message
          {| Request.json := Ok postdata |} st
        = (Ok (response_text "success"),
           with_trace
             (trace st'
              ++ [ Logged ERROR
                     (WithException
                        "Exception when trying to handle message.{0}" e);
                   Logged DEBUG (Traceback e) ])
             st'))
  /\ ((forall v, sender_of postdata <> Ok v) ->
      exists logs : list Event,
        Forall is_log logs
        /\ forall handler : UserMessage.t -> M unit,
             BotFrameworkInput.webhook self handler
               {| Request.json := Ok postdata |} st
             = (Ok (response_text "success"),
                with_trace (trace st ++ logs) st)).
Proof.
  split; [|split].
  - rewrite webhook_decoded.
    now destruct (BotFrameworkInput.handle self on_new_message postdata st)
      as [[[]|e] st'].
  - intros e st' Hraise. now rewrite webhook_decoded, Hraise.
  - intros Hmissing.
    destruct (handle_without_sender self postdata st Hmissing)
      as (r & logs & Hlogs & Hrun).
    destruct r as [[]|e].
    + exists logs. split; [assumption|]. intros handler.
      now rewrite webhook_decoded, Hrun.
    + exists (logs
              ++ [ Logged ERROR
                     (WithException
                        "Exception when trying to handle message.{0}" e);
                   Logged DEBUG (Traceback e) ]).
      split.
      * apply Forall_app. split; [assumption | repeat constructor].
      * intros handler. rewrite webhook_decoded, Hrun.
        unfold acknowledge, with_trace. cbn. now rewrite <- app_assoc.
Qed.

(** C4 fails on a body that is not JSON: [request.json] raises before the
    [try] block is entered, so the exception leaves the route.  There is
    no answer from the handler and no log record. *)
Lemma webhook_undecodable_body :
  BotFrameworkInput.webhook sample_input recording_handler
    {| Request.json := Raise InvalidUsage |} (sample_world granting_server)
  = (Raise InvalidUsage, sample_world granting_server).
Proof. reflexivity. Qed.

(** C5 fails on a message activity without [from]: reading the sender
    raises [KeyError], which the webhook logs; the handler, which would
    have left a record, was not called. *)
Lemma webhook_drops_anonymous_message :
  BotFrameworkInput.webhook sample_input recording_handler
    {| Request.json := Ok (PDict anonymous_activity) |}
    (sample_world granting_server)
  = (Ok (response_text "success"),
     with_trace
       [ Logged DEBUG (Dump (PDict anonymous_activity));
         Logged ERROR
           (WithException "Exception when trying to handle message.{0}"
              (KeyError "from"));
         Logged DEBUG (Traceback (KeyError "from")) ]
       (sample_world granting_server)).
Proof. reflexivity. Qed.

(** ** Deliveries *)

Lemma follows_trans (st1 st2 st3 : World) (evs1 evs2 : list Event) :
  follows st1 st2 evs1 -> follows st2 st3 evs2 ->
  follows st1 st3 (evs1 ++ evs2).
Proof.
  intros (Ht1 & Hh1 & Hc1 & Hs1) (Ht2 & Hh2 & Hc2 & Hs2).
  repeat split; try congruence.
  now rewrite Ht2, Ht1, app_assoc.
Qed.

Lemma follows_refl (st : World) : follows st st [].
Proof. repeat split. now rewrite app_nil_r. Qed.

(** Whatever comes of it, [_get_headers] posts no activity and leaves the
    heap, the clock and the network alone. *)
Lemma get_headers_frame (self : BotFramework.t) (st : World) :
  exists evs : list Event,
    follows st (snd (BotFramework._get_headers self st)) evs
    /\ deliveries evs = [].
Proof.
  destruct (Z.ltb_spec (token_expiration_date st) (clock st (ticks st)))
    as [Hexpired|Hfresh].
  - rewrite get_headers_expired by assumption.
    token_cases; cbn;
      first [ exists [Posted (token_request self)];
              split; [now repeat split | reflexivity]
            | exists [ Posted (token_request self);
                       Logged ERROR (Plain "Could not get BotFramework token") ];
              split; [|reflexivity];
              repeat split; cbn; now rewrite <- app_assoc ].
  - rewrite get_headers_fresh by assumption.
    exists []. split; [|reflexivity].
    repeat split. cbn. now rewrite app_nil_r.
Qed.

(** A [send] that returned has posted its message, once, to the activities
    address of the conversation. *)
Lemma send_returned (self : BotFramework.t) (message_data : pyval)
  (st st' : World) :
  BotFramework.send self message_data st = (Ok tt, st') ->
  exists (conversation_id : pyval) (evs : list Event),
    Py.getitem (BotFramework.conversation self) "id" = Ok conversation_id
    /\ follows st st' evs
    /\ deliveries evs
       = [(activities_uri self conversation_id, Py.json_dumps message_data)].
Proof.
  unfold BotFramework.send, bind, lift.
  destruct (Py.getitem (BotFramework.conversation self) "id")
    as [conversation_id|]; [|discriminate].
  destruct (get_headers_frame self st) as (evs & Hfollows & Hnone).
  destruct (BotFramework._get_headers self st) as [[h|e] st1];
    [|discriminate].
  cbn [snd] in Hfollows.
  fold (activities_uri self conversation_id). unfold requests_post.
  destruct (http_url (activities_uri self conversation_id)); [|discriminate].
  set (request := {| uri := activities_uri self conversation_id;
                     sent_headers := h;
                     data := TextData (Py.json_dumps message_data) |}).
  destruct (server st1 (trace st1) request) as [response|]; [|discriminate].
  intros Hrun. exists conversation_id.
  destruct (ok response); cbn in Hrun; injection Hrun as <-.
  - exists (evs ++ [Posted request]). split; [reflexivity|]. split.
    + apply (follows_trans _ _ _ _ _ Hfollows). now repeat split.
    + rewrite deliveries_app, Hnone. reflexivity.
  - exists (evs ++ [Posted request; Logged ERROR
                      (WithText
                         "Error trying to send botframework messge. Response: %s"
                         (text response))]).
    split; [reflexivity|]. split.
    + apply (follows_trans _ _ _ _ _ Hfollows).
      repeat split. cbn. now rewrite <- app_assoc.
    + rewrite deliveries_app, Hnone. reflexivity.
Qed.

Lemma for_each_send_returned {A : Type} (self : BotFramework.t)
  (conversation_id : pyval) (payload : A -> pyval) (l : list A)
  (st st' : World) :
  Py.getitem (BotFramework.conversation self) "id" = Ok conversation_id ->
  for_each l (fun x => BotFramework.send self (payload x)) st = (Ok tt, st') ->
  exists evs : list Event,
    follows st st' evs
    /\ deliveries evs
       = map (fun x => (activities_uri self conversation_id,
                        Py.json_dumps (payload x))) l.
Proof.
  intros Hid. revert st.
  induction l as [|x l IH]; intros st Hrun.
  - injection Hrun as <-. exists []. split; [apply follows_refl | reflexivity].
  - cbn [for_each] in Hrun. unfold bind at 1 in Hrun.
    destruct (BotFramework.send self (payload x) st) as [[[]|e] st1] eqn:Hsend;
      [|discriminate].
    destruct (send_returned self (payload x) st st1 Hsend)
      as (id' & evs1 & Hid' & Hfollows1 & Hdel1).
    assert (id' = conversation_id) as -> by congruence.
    destruct (IH st1 Hrun) as (evs2 & Hfollows2 & Hdel2).
    exists (evs1 ++ evs2). split.
    + eapply follows_trans; eassumption.
    + rewrite deliveries_app, Hdel1, Hdel2. reflexivity.
Qed.

(** With a token that is still good and a post that is answered, [send]
    reads the clock once and makes the one post. *)
Lemma send_valid (self : BotFramework.t) (message_data conversation_id : pyval)
  (st : World) (response : Response) :
  Py.getitem (BotFramework.conversation self) "id" = Ok conversation_id ->
  clock st (ticks st) <= token_expiration_date st ->
  http_url (activities_uri self conversation_id) = true ->
  server st (trace st)
    (activity_request self conversation_id (headers st) message_data)
  = Ok response ->
  BotFramework.send self message_data st
  = (Ok tt,
     with_trace
       (trace st
        ++ sent (activity_request self conversation_id (headers st)
                   message_data)
             response)
       (with_ticks (S (ticks st)) st)).
Proof.
  intros Hid Hfresh Hurl Hanswer.
  unfold BotFramework.send, bind, lift. rewrite Hid.
  rewrite (get_headers_fresh self st Hfresh).
  fold (activities_uri self conversation_id).
  unfold requests_post. rewrite Hurl. cbn [trace server with_ticks].
  fold (activity_request self conversation_id (headers st) message_data).
  rewrite Hanswer. unfold sent.
  destruct (ok response); cbn; unfold log, with_trace; cbn;
    [reflexivity | now rewrite <- app_assoc].
Qed.

Lemma posts_sent (request : HttpRequest) (response : Response) :
  posts (sent request response) = [request].
Proof. unfold sent. now destruct (ok response). Qed.

(** While the token stays good and the posts are answered, a row of sends
    returns, and its posts are the activities, one for each message in
    turn, under the cached headers; the token is not touched. *)
Lemma for_each_send_valid {A : Type} (self : BotFramework.t)
  (conversation_id : pyval) (payload : A -> pyval) (l : list A) (st : World) :
  Py.getitem (BotFramework.conversation self) "id" = Ok conversation_id ->
  activities_answered self conversation_id st ->
  token_valid st (length l) ->
  exists (st' : World) (evs : list Event),
    for_each l (fun x => BotFramework.send self (payload x)) st = (Ok tt, st')
    /\ follows st st' evs
    /\ token_expiration_date st' = token_expiration_date st
    /\ headers st' = headers st
    /\ posts evs
       = map (fun x => activity_request self conversation_id (headers st)
                         (payload x)) l.
Proof.
  intros Hid. revert st.
  induction l as [|x l IH]; intros st Hanswered Hvalid.
  - exists st, []. split; [reflexivity|].
    split; [apply follows_refl | now repeat split].
  - destruct Hanswered as [Hurl Hanswer].
    destruct (Hanswer (trace st) (payload x)) as [response Hresponse].
    assert (Hfresh : clock st (ticks st) <= token_expiration_date st).
    { specialize (Hvalid O ltac:(cbn; lia)).
      now rewrite Nat.add_0_r in Hvalid. }
    pose proof (send_valid self (payload x) conversation_id st response
                  Hid Hfresh Hurl Hresponse) as Hsend.
    set (request := activity_request self conversation_id (headers st)
                      (payload x)) in *.
    set (st1 := with_trace (trace st ++ sent request response)
                  (with_ticks (S (ticks st)) st)) in *.
    destruct (IH st1) as (st' & evs & Hrun & Hfollows & Hdate & Hheaders & Hposts).
    + split; [exact Hurl | exact Hanswer].
    + intros i Hi. specialize (Hvalid (S i) ltac:(cbn; lia)).
      cbn. now replace (S (ticks st + i)) with (ticks st + S i)%nat by lia.
    + exists st', (sent request response ++ evs).
      split; [|split; [|split; [|split]]].
      * cbn [for_each]. unfold bind at 1. now rewrite Hsend.
      * apply (follows_trans st st1 st'); [now repeat split | exact Hfollows].
      * exact Hdate.
      * exact Hheaders.
      * rewrite posts_app, posts_sent, Hposts. reflexivity.
Qed.

(** X18. After a refused token request the send goes on all the same:
    when its own post is answered, the activity has been posted with no
    headers at all. *)
Lemma send_after_refused_token (self : BotFramework.t)
  (message_data conversation_id : pyval) (st : World)
  (refusal answer : Response) :
  let request := activity_request self conversation_id None message_data in
  Py.getitem (BotFramework.conversation self) "id" = Ok conversation_id ->
  token_expiration_date st < clock st (ticks st) ->
  server st (trace st) (token_request self) = Ok refusal ->
  ok refusal = false ->
  http_url (activities_uri self conversation_id) = true ->
  server st
    (trace st
     ++ [ Posted (token_request self);
          Logged ERROR (Plain "Could not get BotFramework token") ])
    request
  = Ok answer ->
  fst (BotFramework.send self message_data st) = Ok tt
  /\ posts (trace (snd (BotFramework.send self message_data st)))
     = posts (trace st) ++ [token_request self; request].
Proof.
  intros request Hid Hexpired Hrefusal Hrefused Hurl Hanswer.
  unfold BotFramework.send, bind, lift. rewrite Hid.
  rewrite (get_headers_refused self st refusal Hexpired Hrefusal Hrefused).
  fold (activities_uri self conversation_id).
  unfold requests_post. rewrite Hurl. cbn [trace server with_trace with_ticks].
  fold (activity_request self conversation_id None message_data).
  fold request. rewrite Hanswer.
  destruct (ok answer); cbn; rewrite !posts_app; cbn;
    rewrite <- ?app_assoc, ?app_nil_r; split; reflexivity.
Qed.

(** X19. While the token stays good and the posts are answered,
    [send_elements] returns, and what it has posted are the payloads
    [prepare_message] makes of the elements, one activity for each, in the
    order of the elements. *)
Lemma send_elements_delivers (self : BotFramework.t) (recipient_id : pyval)
  (elements : list pydict) (conversation_id : pyval) (st : World) :
  Py.getitem (BotFramework.conversation self) "id" = Ok conversation_id ->
  activities_answered self conversation_id st ->
  token_valid st (length elements) ->
  exists (st' : World) (evs : list Event),
    BotFramework.send_elements self recipient_id elements st = (Ok tt, st')
    /\ trace st' = trace st ++ evs
    /\ posts evs
       = map (fun e =>
                activity_request self conversation_id (headers st)
                  (PDict (BotFramework.prepare_message self recipient_id e)))
           elements.
Proof.
  intros Hid Hanswered Hvalid. unfold BotFramework.send_elements.
  destruct (for_each_send_valid self conversation_id
              (fun e => PDict (BotFramework.prepare_message self
                                 recipient_id e))
              elements st Hid Hanswered Hvalid)
    as (st' & evs & Hrun & (Htrace & _) & _ & _ & Hposts).
  now exists st', evs.
Qed.

(** ** Payloads *)

Lemma dict_get_set (k k' : string) (v : pyval) (d : pydict) :
  Py.dict_get k' (Py.dict_set k v d)
  = if String.eqb k' k then Some v else Py.dict_get k' d.
Proof.
  induction d as [|[k0 v0] d IH]; cbn.
  - reflexivity.
  - destruct (String.eqb_spec k k0) as [->|Hk]; cbn.
    + now destruct (String.eqb k' k0).
    + rewrite IH.
      destruct (String.eqb_spec k' k0) as [->|Hk'].
      * destruct (String.eqb_spec k0 k); [congruence | reflexivity].
      * reflexivity.
Qed.

Lemma dict_get_absent (k : string) (d : pydict) :
  k ∉ Py.keys d -> Py.dict_get k d = None.
Proof.
  induction d as [|[k0 v0] d IH]; cbn; [reflexivity|].
  intros Hnot. apply not_elem_of_cons in Hnot as [Hk Hnot].
  destruct (String.eqb_spec k k0); [contradiction | now apply IH].
Qed.

(** After [d.update(m)] a key of [m] has the value [m] gives it, and any
    other key has the value it had in [d]. *)
Lemma dict_get_update (k : string) (d m : pydict) :
  NoDup (Py.keys m) ->
  Py.dict_get k (Py.dict_update d m)
  = match Py.dict_get k m with
    | Some v => Some v
    | None => Py.dict_get k d
    end.
Proof.
  unfold Py.dict_update. revert d.
  induction m as [|[k0 v0] m IH]; intros d Hkeys; cbn.
  - reflexivity.
  - inversion Hkeys as [|? ? Hfresh Hrest]; subst.
    rewrite (IH _ Hrest), dict_get_set.
    destruct (String.eqb_spec k k0) as [->|Hk].
    + now rewrite (dict_get_absent _ _ Hfresh).
    + reflexivity.
Qed.

(** C9. The merge of [prepare_message] is shallow.  A top-level key of
    [message_data] has in the payload exactly the value [message_data]
    gives it: for [channelData] and [recipient] that value stands in place
    of the default, nothing of the default is merged into it.  A key that
    [message_data] does not have keeps the default: type, recipient, from,
    channelData, text. *)
Theorem prepare_message_is_shallow
  (self : BotFramework.t) (recipient_id : pyval) (message_data : pydict) :
  NoDup (Py.keys message_data) ->
  let payload := BotFramework.prepare_message self recipient_id message_data in
  (forall k v, Py.dict_get k message_data = Some v ->
               Py.dict_get k payload = Some v)
  /\ (forall v, Py.dict_get "channelData" message_data = Some v ->
                read_path (PDict payload) ["channelData"; "notification"]
                = read_path v ["notification"])
  /\ (forall v, Py.dict_get "recipient" message_data = Some v ->
                read_path (PDict payload) ["recipient"; "id"]
                = read_path v ["id"])
  /\ (forall k, Py.dict_get k message_data = None ->
                Py.dict_get k payload
                = Py.dict_get k (default_fields self recipient_id)).
Proof.
  intros Hkeys payload.
  assert (Hget : forall k,
             Py.dict_get k payload
             = match Py.dict_get k message_data with
               | Some v => Some v
               | None => Py.dict_get k (default_fields self recipient_id)
               end).
  { intros k. apply dict_get_update, Hkeys. }
  repeat split.
  - intros k v Hk. now rewrite Hget, Hk.
  - intros v Hk. cbn [read_path]. now rewrite Hget, Hk.
  - intros v Hk. cbn [read_path]. now rewrite Hget, Hk.
  - intros k Hk. now rewrite Hget, Hk.
Qed.

(** the payload of one paragraph of a text *)
Lemma prepare_text_message (self : BotFramework.t) (recipient_id : pyval)
  (part : string) :
  BotFramework.prepare_message self recipient_id [("text", PStr part)]
  = [ ("type", PStr "message");
      ("recipient", PDict [("id", recipient_id)]);
      ("from", BotFramework.bot self);
      ("channelData", PDict [("notification", PDict [("alert", PStr "true")])]);
      ("text", PStr part) ].
Proof. reflexivity. Qed.

(** C6, as the code has it.  [send_text_message] splits the text at each
    blank line and sends one activity per piece, in the order of the
    pieces, one send finishing before the next begins; each activity is
    the default payload with the piece as its text.  That is what a call
    that returned has posted.  A send that raises ends the call (see
    [send_text_message_stops_without_scheme]); none does, and the call
    returns, at least when the channel knows the id of its conversation,
    the cached token stays good and every post is answered.  The text [a],
    blank line, [b], blank line, [c] has the three pieces [a], [b], [c]. *)
Theorem send_text_message_delivers_paragraphs
  (self : BotFramework.t) (recipient_id : pyval) (text : string)
  (conversation_id : pyval) (st : World) :
  Py.getitem (BotFramework.conversation self) "id" = Ok conversation_id ->
  (forall st' : World,
     BotFramework.send_text_message self recipient_id text st = (Ok tt, st') ->
     exists evs : list Event,
       trace st' = trace st ++ evs
       /\ deliveries evs
          = map (fun part =>
                   (activities_uri self conversation_id,
                    Py.json_dumps
                      (PDict
                         [ ("type", PStr "message");
                           ("recipient", PDict [("id", recipient_id)]);
                           ("from", BotFramework.bot self);
                           ("channelData",
                             PDict [("notification",
                                     PDict [("alert", PStr "true")])]);
                           ("text", PStr part) ])))
              (Py.split blank_line text))
  /\ (activities_answered self conversation_id st ->
      token_valid st (length (Py.split blank_line text)) ->
      exists st' : World,
        BotFramework.send_text_message self recipient_id text st
        = (Ok tt, st'))
  /\ Py.split blank_line ("a" +:+ blank_line +:+ "b" +:+ blank_line +:+ "c")
     = ["a"; "b"; "c"].
Proof.
  intros Hid. split; [|split; [|reflexivity]].
  - intros st' Hrun. unfold BotFramework.send_text_message in Hrun.
    destruct (for_each_send_returned self conversation_id
                (fun part => PDict (BotFramework.prepare_message self
                                      recipient_id [("text", PStr part)]))
                (Py.split blank_line text) st st' Hid Hrun)
      as (evs & (Htrace & _) & Hdel).
    exists evs. split; [exact Htrace|].
    rewrite Hdel. apply map_ext. intros part.
    now rewrite prepare_text_message.
  - intros Hanswered Hvalid. unfold BotFramework.send_text_message.
    destruct (for_each_send_valid self conversation_id
                (fun part => PDict (BotFramework.prepare_message self
                                      recipient_id [("text", PStr part)]))
                (Py.split blank_line text) st Hid Hanswered Hvalid)
      as (st' & evs & Hrun & _).
    now exists st'.
Qed.

(** C6 fails on a channel whose address has no scheme: the first send
    raises when it comes to its post, and the call ends there with no
    activity posted, for the first piece or for the two others. *)
Lemma send_text_message_stops_without_scheme :
  BotFramework.send_text_message schemeless_channel (PStr "user")
    ("a" +:+ blank_line +:+ "b" +:+ blank_line +:+ "c") ready_world
  = (Raise RequestException, with_ticks 2 ready_world).
Proof. reflexivity. Qed.

(** ** Defaults filled in place *)

Lemma dict_get_app (k : string) (d1 d2 : pydict) :
  Py.dict_get k (d1 ++ d2)
  = match Py.dict_get k d1 with
    | Some v => Some v
    | None => Py.dict_get k d2
    end.
Proof.
  induction d1 as [|[k0 v0] d1 IH]; cbn; [reflexivity|].
  now destruct (String.eqb k k0).
Qed.

Lemma dict_set_same (k : string) (v : pyval) (d : pydict) :
  Py.dict_get k d = Some v -> Py.dict_set k v d = d.
Proof.
  induction d as [|[k0 v0] d IH]; cbn; [discriminate|].
  destruct (String.eqb k k0); intros H; [congruence | now rewrite IH].
Qed.

Lemma dict_set_set (k : string) (v v' : pyval) (d : pydict) :
  Py.dict_set k v' (Py.dict_set k v d) = Py.dict_set k v' d.
Proof.
  induction d as [|[k0 v0] d IH]; cbn.
  - now rewrite String.eqb_refl.
  - destruct (String.eqb k k0) eqn:Hk; cbn; rewrite Hk; [reflexivity|].
    now rewrite IH.
Qed.

Lemma fill_get (k k' : string) (v : pyval) (d : pydict) :
  Py.dict_get k' (fill k v d)
  = if String.eqb k' k
    then Some (match Py.dict_get k d with Some x => x | None => v end)
    else Py.dict_get k' d.
Proof.
  unfold fill.
  destruct (String.eqb_spec k' k) as [->|Hk].
  - destruct (Py.dict_get k d) eqn:Hd; [assumption|].
    rewrite dict_get_app, Hd. cbn. now rewrite String.eqb_refl.
  - destruct (Py.dict_get k d) eqn:Hd; [reflexivity|].
    rewrite dict_get_app. destruct (Py.dict_get k' d); [reflexivity|].
    cbn. now destruct (String.eqb_spec k' k).
Qed.

Lemma fill_in_get (k k' : string) (f : pydict -> pydict) (d : pydict) :
  Py.dict_get k' (fill_in k f d)
  = if String.eqb k' k
    then Some (match Py.dict_get k d with
               | Some (PDict inner) => PDict (f inner)
               | Some x => x
               | None => PDict (f [])
               end)
    else Py.dict_get k' d.
Proof.
  unfold fill_in.
  pose proof (fill_get k k (PDict []) d) as Hk. rewrite String.eqb_refl in Hk.
  pose proof (fill_get k k' (PDict []) d) as Hk'.
  destruct (String.eqb_spec k' k) as [->|Hne].
  - rewrite Hk.
    destruct (Py.dict_get k d) as [[]|]; rewrite ?dict_get_set, ?String.eqb_refl;
      try assumption; reflexivity.
  - rewrite Hk.
    destruct (Py.dict_get k d) as [[]|]; rewrite ?dict_get_set; try assumption;
      now destruct (String.eqb_spec k' k).
Qed.

Lemma obj_setdefault_here (o : pyval) (k : string) (v : pyval) :
  obj_setdefault o [] k v
  = match o with
    | PDict d => Some (PDict (fill k v d))
    | _ => None
    end.
Proof.
  unfold obj_setdefault, fill. cbn.
  destruct o; try reflexivity. now destruct (Py.dict_get k d).
Qed.

Lemma obj_setdefault_under (d : pydict) (k1 : string) (u : pyval)
  (p : list string) (k : string) (v : pyval) :
  Py.dict_get k1 d = Some u ->
  obj_setdefault (PDict d) (k1 :: p) k v
  = match obj_setdefault u p k v with
    | Some u' => Some (PDict (Py.dict_set k1 u' d))
    | None => None
    end.
Proof.
  intros Hu. unfold obj_setdefault. cbn. rewrite Hu.
  destruct (read_path u p) as [[]|]; try reflexivity.
  destruct (Py.dict_get k d0); [|reflexivity].
  now rewrite (dict_set_same _ _ _ Hu).
Qed.

Lemma run_defaults_flat (k : string) (v : pyval)
  (rest : list (list string * string * pyval)) (d : pydict) :
  run_defaults (([], k, v) :: rest) (PDict d)
  = run_defaults rest (PDict (fill k v d)).
Proof. cbn [run_defaults]. now rewrite obj_setdefault_here. Qed.

Lemma run_defaults_nested (k1 k : string) (v : pyval)
  (rest : list (list string * string * pyval)) (d : pydict) :
  dict_or_absent (Py.dict_get k1 d) = true ->
  run_defaults (([], k1, PDict []) :: ([k1], k, v) :: rest) (PDict d)
  = run_defaults rest (PDict (fill_in k1 (fill k v) d)).
Proof.
  intros Hdict. rewrite run_defaults_flat. cbn [run_defaults].
  unfold fill_in.
  pose proof (fill_get k1 k1 (PDict []) d) as Hk1.
  rewrite String.eqb_refl in Hk1.
  rewrite (obj_setdefault_under _ _ _ _ _ _ Hk1), obj_setdefault_here, Hk1.
  now destruct (Py.dict_get k1 d) as [[]|].
Qed.

Lemma run_defaults_not_nested (k1 k : string) (v : pyval)
  (rest : list (list string * string * pyval)) (d : pydict) :
  dict_or_absent (Py.dict_get k1 d) = false ->
  snd (run_defaults (([], k1, PDict []) :: ([k1], k, v) :: rest) (PDict d))
  = false.
Proof.
  intros Hdict. rewrite run_defaults_flat. cbn [run_defaults].
  pose proof (fill_get k1 k1 (PDict []) d) as Hk1.
  rewrite String.eqb_refl in Hk1.
  rewrite (obj_setdefault_under _ _ _ _ _ _ Hk1), obj_setdefault_here.
  now destruct (Py.dict_get k1 d) as [[]|].
Qed.

Lemma run_defaults_nested_twice (k1 k2 k : string) (v : pyval)
  (rest : list (list string * string * pyval)) (d : pydict) :
  nested_dicts k1 k2 d = true ->
  run_defaults
    (([], k1, PDict []) :: ([k1], k2, PDict []) :: ([k1; k2], k, v) :: rest)
    (PDict d)
  = run_defaults rest (PDict (fill_in k1 (fill_in k2 (fill k v)) d)).
Proof.
  intros Hdict. rewrite run_defaults_flat. cbn [run_defaults].
  unfold fill_in at 1. unfold nested_dicts in Hdict.
  pose proof (fill_get k1 k1 (PDict []) d) as Hk1.
  rewrite String.eqb_refl in Hk1.
  rewrite (obj_setdefault_under _ _ _ _ _ _ Hk1), obj_setdefault_here, Hk1.
  set (d1 := fill k1 (PDict []) d) in *.
  assert (Hinner : exists c, match Py.dict_get k1 d with
                             | Some x => x
                             | None => PDict []
                             end = PDict c
                             /\ dict_or_absent (Py.dict_get k2 c) = true).
  { destruct (Py.dict_get k1 d) as [[]|]; try discriminate; eauto. }
  destruct Hinner as (c & -> & Hc).
  set (c1 := fill k2 (PDict []) c).
  assert (Hk1' : Py.dict_get k1 (Py.dict_set k1 (PDict c1) d1)
                 = Some (PDict c1))
    by (now rewrite dict_get_set, String.eqb_refl).
  rewrite (obj_setdefault_under _ _ _ _ _ _ Hk1').
  pose proof (fill_get k2 k2 (PDict []) c) as Hk2.
  rewrite String.eqb_refl in Hk2. fold c1 in Hk2.
  rewrite (obj_setdefault_under _ _ _ _ _ _ Hk2), obj_setdefault_here.
  unfold fill_in. fold c1. rewrite Hk2.
  destruct (Py.dict_get k2 c) as [[]|]; cbn in Hc; try discriminate;
    now rewrite dict_set_set.
Qed.

Lemma run_defaults_not_nested_twice (k1 k2 k : string) (v : pyval)
  (rest : list (list string * string * pyval)) (d : pydict) :
  nested_dicts k1 k2 d = false ->
  snd (run_defaults
         (([], k1, PDict []) :: ([k1], k2, PDict []) :: ([k1; k2], k, v)
          :: rest)
         (PDict d))
  = false.
Proof.
  intros Hdict. rewrite run_defaults_flat. cbn [run_defaults].
  unfold nested_dicts in Hdict.
  pose proof (fill_get k1 k1 (PDict []) d) as Hk1.
  rewrite String.eqb_refl in Hk1.
  rewrite (obj_setdefault_under _ _ _ _ _ _ Hk1), obj_setdefault_here.
  set (d1 := fill k1 (PDict []) d) in *.
  destruct (Py.dict_get k1 d) as [[| | | | |c]|]; try discriminate;
    try reflexivity.
  set (c1 := fill k2 (PDict []) c).
  assert (Hk1' : Py.dict_get k1 (Py.dict_set k1 (PDict c1) d1)
                 = Some (PDict c1))
    by (now rewrite dict_get_set, String.eqb_refl).
  rewrite (obj_setdefault_under _ _ _ _ _ _ Hk1').
  pose proof (fill_get k2 k2 (PDict []) c) as Hk2.
  rewrite String.eqb_refl in Hk2. fold c1 in Hk2.
  rewrite (obj_setdefault_under _ _ _ _ _ _ Hk2), obj_setdefault_here.
  now destruct (Py.dict_get k2 c) as [[]|].
Qed.

(** lookups through [fill] and [fill_in] at literal keys *)
Ltac lookup_filled :=
  repeat (first [rewrite fill_get | rewrite fill_in_get];
          cbn [String.eqb Ascii.eqb Bool.eqb]).

Lemma run_defaults_fillable (self : BotFramework.t) (recipient_id : pyval)
  (d : pydict) :
  fillable d = true ->
  run_defaults (custom_steps self recipient_id) (PDict d)
  = (PDict (with_defaults self recipient_id d), true).
Proof.
  intros Hfill. apply andb_prop in Hfill as [Hrecipient Hchannel].
  unfold custom_steps, with_defaults.
  rewrite run_defaults_flat, run_defaults_nested, run_defaults_flat,
    run_defaults_nested_twice, run_defaults_flat.
  - reflexivity.
  - unfold nested_dicts. lookup_filled. exact Hchannel.
  - lookup_filled. exact Hrecipient.
Qed.

Lemma run_defaults_unfillable (self : BotFramework.t) (recipient_id : pyval)
  (o : pyval) :
  match o with PDict d => fillable d | _ => false end = false ->
  snd (run_defaults (custom_steps self recipient_id) o) = false.
Proof.
  intros Hfill. unfold custom_steps.
  destruct o as [| | | | |d];
    try (cbn [run_defaults]; now rewrite obj_setdefault_here).
  rewrite run_defaults_flat. unfold fillable in Hfill.
  destruct (dict_or_absent (Py.dict_get "recipient" d)) eqn:Hrecipient.
  - rewrite run_defaults_nested, run_defaults_flat
      by (lookup_filled; exact Hrecipient).
    apply run_defaults_not_nested_twice.
    unfold nested_dicts. lookup_filled. exact Hfill.
  - apply run_defaults_not_nested. lookup_filled. exact Hrecipient.
Qed.

Lemma holding_same (a : nat) (o : pyval) (st : World) :
  heap st !! a = Some o -> holding a o st = st.
Proof.
  intros Ho. unfold holding, with_heap. rewrite (insert_id _ _ _ Ho).
  now destruct st.
Qed.

Lemma holding_again (a : nat) (o o' : pyval) (st : World) :
  holding a o' (holding a o st) = holding a o' st.
Proof. unfold holding, with_heap. cbn. now rewrite insert_insert_eq. Qed.

Lemma setdefault_run (a : nat) (p : list string) (k : string) (v o : pyval)
  (st : World) :
  setdefault {| base := a; path := p |} k v (holding a o st)
  = match obj_setdefault o p k v with
    | Some o' => (Ok {| base := a; path := p ++ [k] |}, holding a o' st)
    | None => (Raise AttributeError, holding a o st)
    end.
Proof.
  unfold setdefault, obj_setdefault, object. cbn [base path].
  replace (heap (holding a o st) !! a) with (Some o)
    by (unfold holding; cbn; now rewrite lookup_insert_eq).
  destruct (read_path o p) as [[]|]; try reflexivity.
  destruct (Py.dict_get k d).
  - reflexivity.
  - unfold subplace. cbn [base path]. f_equal.
    apply (holding_again a o).
Qed.

Lemma send_custom_json_run (self : BotFramework.t) (recipient_id : pyval)
  (a : nat) (o : pyval) (st : World) :
  heap st !! a = Some o ->
  BotFramework.send_custom_json self recipient_id (object_at a) st
  = let (o', fine) := run_defaults (custom_steps self recipient_id) o in
    if fine then BotFramework.send self o' (holding a o' st)
    else (Raise AttributeError, holding a o' st).
Proof.
  intros Ho. rewrite <- (holding_same a o st Ho) at 1.
  unfold BotFramework.send_custom_json, object_at, custom_steps.
  cbn [run_defaults].
  repeat (unfold bind at 1; rewrite setdefault_run; cbn [app];
          match goal with
          | |- context [obj_setdefault ?x ?p ?k ?v] =>
              destruct (obj_setdefault x p k v); [|reflexivity]
          end).
  unfold bind at 1, load, object, holding. cbn.
  now rewrite lookup_insert_eq.
Qed.

(** The five fields after filling: each has the value the message gave it,
    or its default when the message had none. *)
Lemma with_defaults_fields (self : BotFramework.t) (recipient_id : pyval)
  (d : pydict) :
  fillable d = true ->
  let before := read_path (PDict d) in
  let after := read_path (PDict (with_defaults self recipient_id d)) in
  after ["type"] = Some (default (PStr "message") (before ["type"]))
  /\ after ["recipient"; "id"]
     = Some (default recipient_id (before ["recipient"; "id"]))
  /\ after ["from"] = Some (default (BotFramework.bot self) (before ["from"]))
  /\ after ["channelData"; "notification"; "alert"]
     = Some (default (PStr "true")
               (before ["channelData"; "notification"; "alert"]))
  /\ after ["text"] = Some (default (PStr "") (before ["text"])).
Proof.
  intros Hfill. apply andb_prop in Hfill as [Hrecipient Hchannel].
  unfold with_defaults. cbn [read_path]. lookup_filled.
  repeat split.
  - now destruct (Py.dict_get "type" d).
  - destruct (Py.dict_get "recipient" d) as [[]|]; try discriminate;
      cbn [read_path default]; lookup_filled;
      [now destruct (Py.dict_get "id" d0) | reflexivity].
  - now destruct (Py.dict_get "from" d).
  - destruct (Py.dict_get "channelData" d) as [[| | | | |c]|];
      try discriminate; cbn [read_path default]; lookup_filled;
      [|reflexivity].
    destruct (Py.dict_get "notification" c) as [[| | | | |n]|];
      try discriminate; cbn [read_path default]; lookup_filled;
      [now destruct (Py.dict_get "alert" n) | reflexivity].
  - now destruct (Py.dict_get "text" d).
Qed.

Lemma fill_keeps (k k' : string) (v x : pyval) (d : pydict) :
  Py.dict_get k' d = Some x -> Py.dict_get k' (fill k v d) = Some x.
Proof.
  intros Hx. rewrite fill_get.
  destruct (String.eqb_spec k' k) as [->|]; [now rewrite Hx | assumption].
Qed.

(** Filling overwrites nothing: whatever could be read in the message, and
    is not itself a dict that receives a default, reads the same after. *)
Lemma with_defaults_keeps (self : BotFramework.t) (recipient_id : pyval)
  (d : pydict) (p : list string) (v : pyval) :
  fillable d = true ->
  read_path (PDict d) p = Some v ->
  is_dict v = false ->
  read_path (PDict (with_defaults self recipient_id d)) p = Some v.
Proof.
  intros Hfill Hread Hleaf. apply andb_prop in Hfill as [Hrecipient Hchannel].
  destruct p as [|k p]; [cbn in Hread; now inversion Hread; subst|].
  cbn [read_path] in *.
  destruct (Py.dict_get k d) as [u|] eqn:Hu; [|discriminate].
  unfold with_defaults.
  destruct (String.eqb_spec k "recipient") as [->|Hnr].
  { lookup_filled. rewrite Hu in *.
    destruct u as [| | | | |r]; try discriminate.
    destruct p as [|k2 p]; [cbn in Hread; now inversion Hread; subst|].
    cbn [read_path] in *.
    destruct (Py.dict_get k2 r) as [u2|] eqn:Hu2; [|discriminate].
    now rewrite (fill_keeps _ _ _ _ _ Hu2). }
  destruct (String.eqb_spec k "channelData") as [->|Hnc].
  { lookup_filled. rewrite Hu in *.
    destruct u as [| | | | |c]; try discriminate.
    destruct p as [|k2 p]; [cbn in Hread; now inversion Hread; subst|].
    cbn [read_path] in *.
    destruct (Py.dict_get k2 c) as [u2|] eqn:Hu2; [|discriminate].
    rewrite fill_in_get.
    destruct (String.eqb_spec k2 "notification") as [->|Hnn];
      [|now rewrite Hu2].
    rewrite Hu2 in *.
    destruct u2 as [| | | | |n]; try discriminate.
    destruct p as [|k3 p]; [cbn in Hread; now inversion Hread; subst|].
    cbn [read_path] in *.
    destruct (Py.dict_get k3 n) as [u3|] eqn:Hu3; [|discriminate].
    now rewrite (fill_keeps _ _ _ _ _ Hu3). }
  assert (Hkept : Py.dict_get k
                    (fill "text" (PStr "")
                       (fill_in "channelData"
                          (fill_in "notification" (fill "alert" (PStr "true")))
                          (fill "from" (BotFramework.bot self)
                             (fill_in "recipient" (fill "id" recipient_id)
                                (fill "type" (PStr "message") d)))))
                  = Some u).
  { apply fill_keeps. rewrite fill_in_get.
    destruct (String.eqb_spec k "channelData"); [contradiction|].
    apply fill_keeps. rewrite fill_in_get.
    destruct (String.eqb_spec k "recipient"); [contradiction|].
    now apply fill_keeps. }
  now rewrite Hkept.
Qed.

Lemma get_headers_heap (self : BotFramework.t) (st : World) :
  heap (snd (BotFramework._get_headers self st)) = heap st.
Proof.
  destruct (get_headers_frame self st) as (evs & (_ & Hheap & _) & _).
  exact Hheap.
Qed.

Lemma send_heap (self : BotFramework.t) (message_data : pyval) (st : World) :
  heap (snd (BotFramework.send self message_data st)) = heap st.
Proof.
  unfold BotFramework.send, bind, lift.
  destruct (Py.getitem _ "id"); [|reflexivity].
  pose proof (get_headers_heap self st) as Hheap.
  destruct (BotFramework._get_headers self st) as [[h|e] st1];
    [|exact Hheap].
  cbn in Hheap. unfold requests_post.
  destruct (http_url _); [|exact Hheap].
  destruct (server st1 _ _) as [response|]; [|exact Hheap].
  now destruct (ok response).
Qed.

(** C7, as the code has it.  Take a message whose [recipient],
    [channelData] and [channelData.notification], where present, are
    dicts.  Then [send_custom_json] is a [send] of the message with the
    defaults filled in, made after the caller's object has become that
    message.  In it each of [type], [recipient.id], [from],
    [channelData.notification.alert] and [text] has the value the message
    gave it, and its default only when the message had none, and every
    other value of the message is kept.  A call that returned has posted
    that one activity; the call returns when [send] does not raise, which
    is so at least when the channel knows the id of its conversation, the
    cached token is good and the post is answered.  For the message with
    the one field [text] set to [hi] the payload has that text and the
    four other defaults. *)
Theorem send_custom_json_fills_absent_fields
  (self : BotFramework.t) (recipient_id : pyval) (a : nat) (d : pydict)
  (st : World) :
  heap st !! a = Some (PDict d) ->
  fillable d = true ->
  let filled := with_defaults self recipient_id d in
  let before := read_path (PDict d) in
  let after := read_path (PDict filled) in
  BotFramework.send_custom_json self recipient_id (object_at a) st
  = BotFramework.send self (PDict filled) (holding a (PDict filled) st)
  /\ (forall st' : World,
        BotFramework.send_custom_json self recipient_id (object_at a) st
        = (Ok tt, st') ->
        exists (conversation_id : pyval) (evs : list Event),
          Py.getitem (BotFramework.conversation self) "id"
          = Ok conversation_id
          /\ trace st' = trace st ++ evs
          /\ deliveries evs
             = [(activities_uri self conversation_id,
                 Py.json_dumps (PDict filled))])
  /\ (forall (conversation_id : pyval) (response : Response),
        Py.getitem (BotFramework.conversation self) "id"
        = Ok conversation_id ->
        clock st (ticks st) <= token_expiration_date st ->
        http_url (activities_uri self conversation_id) = true ->
        server st (trace st)
          (activity_request self conversation_id (headers st) (PDict filled))
        = Ok response ->
        BotFramework.send_custom_json self recipient_id (object_at a) st
        = (Ok tt,
           with_trace
             (trace st
              ++ sent (activity_request self conversation_id (headers st)
                         (PDict filled))
                   response)
             (with_ticks (S (ticks st)) (holding a (PDict filled) st))))
  /\ (after ["type"] = Some (default (PStr "message") (before ["type"]))
      /\ after ["recipient"; "id"]
         = Some (default recipient_id (before ["recipient"; "id"]))
      /\ after ["from"]
         = Some (default (BotFramework.bot self) (before ["from"]))
      /\ after ["channelData"; "notification"; "alert"]
         = Some (default (PStr "true")
                   (before ["channelData"; "notification"; "alert"]))
      /\ after ["text"] = Some (default (PStr "") (before ["text"])))
  /\ (forall p v, before p = Some v -> is_dict v = false ->
                  after p = Some v)
  /\ with_defaults self recipient_id [("text", PStr "hi")]
     = [ ("text", PStr "hi");
         ("type", PStr "message");
         ("recipient", PDict [("id", recipient_id)]);
         ("from", BotFramework.bot self);
         ("channelData",
           PDict [("notification", PDict [("alert", PStr "true")])]) ].
Proof.
  intros Hobject Hfill filled before after.
  assert (Hrun : BotFramework.send_custom_json self recipient_id
                   (object_at a) st
                 = BotFramework.send self (PDict filled)
                     (holding a (PDict filled) st)).
  { rewrite (send_custom_json_run self recipient_id a _ st Hobject).
    now rewrite (run_defaults_fillable self recipient_id d Hfill). }
  split; [exact Hrun|]. split; [|split; [|split; [|split]]].
  - intros st' Hreturned. rewrite Hrun in Hreturned.
    destruct (send_returned self (PDict filled) _ st' Hreturned)
      as (conversation_id & evs & Hid & (Htrace & _) & Hdel).
    now exists conversation_id, evs.
  - intros conversation_id response Hid Hfresh Hurl Hanswer. rewrite Hrun.
    now apply (send_valid self (PDict filled) conversation_id
                 (holding a (PDict filled) st) response).
  - now apply with_defaults_fields.
  - intros p v. now apply with_defaults_keeps.
  - reflexivity.
Qed.

(** C10. [send_custom_json] works on the dict it was given, not on a
    copy.  When the call has returned, the object at the address the caller
    passed is the caller's message with the defaults filled in, so that
    [type], [recipient.id], [from], [channelData.notification.alert] and
    [text] can all be read from it; no other object of the heap has
    changed and none was created. *)
Theorem send_custom_json_mutates_argument
  (self : BotFramework.t) (recipient_id : pyval) (a : nat) (st st' : World) :
  BotFramework.send_custom_json self recipient_id (object_at a) st
  = (Ok tt, st') ->
  exists d : pydict,
    heap st !! a = Some (PDict d)
    /\ heap st' = <[a := PDict (with_defaults self recipient_id d)]> (heap st)
    /\ Forall
         (fun p => is_Some (read_path (object st' a) p))
         [ ["type"]; ["recipient"; "id"]; ["from"];
           ["channelData"; "notification"; "alert"]; ["text"] ].
Proof.
  intros Hrun.
  destruct (heap st !! a) as [o|] eqn:Hobject.
  2:{ unfold BotFramework.send_custom_json, bind, setdefault, object in Hrun.
      cbn in Hrun. rewrite Hobject in Hrun. discriminate. }
  rewrite (send_custom_json_run self recipient_id a o st Hobject) in Hrun.
  destruct (match o with PDict d => fillable d | _ => false end) eqn:Hfill.
  2:{ pose proof (run_defaults_unfillable self recipient_id o Hfill) as Hno.
      destruct (run_defaults (custom_steps self recipient_id) o) as [o' fine].
      cbn in Hno. subst fine. discriminate. }
  destruct o as [| | | | |d]; try discriminate.
  rewrite (run_defaults_fillable self recipient_id d Hfill) in Hrun.
  exists d. split; [reflexivity|].
  pose proof (send_heap self (PDict (with_defaults self recipient_id d))
                (holding a (PDict (with_defaults self recipient_id d)) st))
    as Hheap.
  rewrite Hrun in Hheap. cbn in Hheap.
  split; [exact Hheap|].
  unfold object. rewrite Hheap, lookup_insert_eq.
  destruct (with_defaults_fields self recipient_id d Hfill)
    as (Htype & Hrecipient & Hfrom & Halert & Htext).
  repeat constructor; eauto.
Qed.

(** ** Splitting a text *)

Lemma append_empty (s : string) : s +:+ EmptyString = s.
Proof.
  induction s as [|c s IH]; [reflexivity|].
  change (String c (s +:+ EmptyString) = String c s). now rewrite IH.
Qed.

Lemma rev_app_append (s1 s2 x : string) :
  String.rev_app s1 s2 +:+ x = String.rev_app s1 (s2 +:+ x).
Proof.
  revert s2. induction s1 as [|c s1 IH]; intros s2; [reflexivity|].
  apply (IH (String c s2)).
Qed.

Lemma rev_cons_append (c : ascii) (cur x : string) :
  String.rev (String c cur) +:+ x = String.rev cur +:+ String c x.
Proof. unfold String.rev. cbn. now rewrite !rev_app_append. Qed.

Lemma starts_with_drop (p s : string) :
  Py.starts_with p s = true ->
  s = p +:+ drop_chars (String.length p) s
  /\ (String.length p <= String.length s)%nat.
Proof.
  revert s. induction p as [|a p IH]; intros s Hp.
  - split; [now destruct s | cbn; lia].
  - destruct s as [|b s]; [discriminate|].
    cbn [Py.starts_with] in Hp. apply andb_prop in Hp as [Hab Hp].
    apply Ascii.eqb_eq in Hab as ->.
    destruct (IH s Hp) as [Hs Hlen]. split; [|cbn; lia].
    change (String b s = String b (p +:+ drop_chars (String.length p) s)).
    now rewrite <- Hs.
Qed.

Lemma split_from_not_nil (sep : string) (skip : nat) (cur s : string) :
  Py.split_from sep skip cur s <> [].
Proof.
  revert skip cur. induction s as [|c s IH]; intros skip cur; cbn;
    [discriminate|].
  destruct skip; [|apply IH].
  destruct (Py.starts_with sep (String c s)); [discriminate | apply IH].
Qed.

Lemma join_cons (sep x : string) (l : list string) :
  l <> [] -> Py.join sep (x :: l) = x +:+ sep +:+ Py.join sep l.
Proof. now destruct l. Qed.

Lemma join_split_from (sep : string) (s : string) :
  sep <> EmptyString ->
  forall (skip : nat) (cur : string),
    (skip <= String.length s)%nat ->
    Py.join sep (Py.split_from sep skip cur s)
    = String.rev cur +:+ drop_chars skip s.
Proof.
  intros Hsep. induction s as [|c s IH]; intros skip cur Hskip.
  - cbn in Hskip. replace skip with O by lia. cbn.
    now rewrite append_empty.
  - destruct skip as [|n].
    + cbn [Py.split_from drop_chars].
      destruct (Py.starts_with sep (String c s)) eqn:Hfound.
      * destruct (starts_with_drop _ _ Hfound) as [Hs Hlen].
        destruct sep as [|a sep]; [contradiction|].
        cbn [String.length Nat.pred drop_chars] in *.
        rewrite join_cons by apply split_from_not_nil.
        rewrite IH by lia.
        change (String.rev EmptyString) with EmptyString.
        change (EmptyString +:+ drop_chars (String.length sep) s)
          with (drop_chars (String.length sep) s).
        now rewrite <- Hs.
      * rewrite IH by lia. cbn [drop_chars]. apply rev_cons_append.
    + cbn [Py.split_from drop_chars]. apply IH. cbn in Hskip. lia.
Qed.

(** Joining the pieces of [s.split(sep)] with [sep] gives [s] back. *)
Lemma join_split (sep s : string) :
  sep <> EmptyString -> Py.join sep (Py.split sep s) = s.
Proof.
  intros Hsep. unfold Py.split.
  now rewrite (join_split_from sep s Hsep O EmptyString (Nat.le_0_l _)).
Qed.

(** ** The theorems at sample values *)

Lemma get_headers_reuses_cached_token_sample :
  BotFramework._get_headers sample_channel cached_world
  = (Ok (headers cached_world), with_ticks 2 cached_world)
  /\ trace (snd (BotFramework._get_headers sample_channel cached_world))
     = trace cached_world
  /\ repeatedly 3 (BotFramework._get_headers sample_channel) cached_world
     = (Ok (repeat (headers cached_world) 3), with_ticks (1 + 3) cached_world).
Proof.
  apply (get_headers_reuses_cached_token sample_channel cached_world 3).
  intros i Hi. cbn. lia.
Defined.

Lemma get_headers_refreshes_expired_token_sample :
  posts (trace (snd (BotFramework._get_headers sample_channel
                       (sample_world granting_server))))
  = [token_request sample_channel]
  /\ BotFramework._get_headers sample_channel (sample_world granting_server)
     = (Ok (Some [ ("content-type", "application/json");
                   ("Authorization", "Bearer abc") ]),
        {| token_expiration_date := 2001000 + 3600 * 1000000;
           headers := Some [ ("content-type", "application/json");
                             ("Authorization", "Bearer abc") ];
           heap := ∅;
           trace := [Posted (token_request sample_channel)];
           ticks := 3;
           clock := clock (sample_world granting_server);
           server := granting_server |}).
Proof.
  destruct (get_headers_refreshes_expired_token sample_channel
              (sample_world granting_server)
              {| ok := true;
                 text := "";
                 json := Ok (PDict [ ("access_token", PStr "abc");
                                     ("expires_in", PInt 3600) ]) |}
              [("access_token", PStr "abc"); ("expires_in", PInt 3600)]
              (PStr "abc") (PInt 3600) 3600)
    as [Hposts Hrefresh]; [cbn; lia|].
  split; [exact Hposts|].
  apply Hrefresh; try reflexivity; vm_compute; split; discriminate.
Defined.

(** C2 fails on the very instant the date names.  Here the class has just
    been created, no token is cached, and the clock reads what it read
    then: [_get_headers] requests nothing and returns [None]. *)
Lemma get_headers_absent_token_same_instant :
  BotFramework._get_headers sample_channel newborn_world
  = (Ok None, with_ticks 2 newborn_world).
Proof. reflexivity. Qed.

Lemma get_headers_failure_keeps_cache_sample :
  BotFramework._get_headers sample_channel (sample_world refusing_server)
  = (Ok None,
     {| token_expiration_date := 1000;
        headers := None;
        heap := ∅;
        trace := [ Posted (token_request sample_channel);
                   Logged ERROR (Plain "Could not get BotFramework token") ];
        ticks := 2;
        clock := clock (sample_world refusing_server);
        server := refusing_server |}).
Proof.
  apply (get_headers_failure_keeps_cache sample_channel
           (sample_world refusing_server)
           {| ok := false; text := "denied"; json := Raise ValueError |});
    [cbn; lia | reflexivity | reflexivity].
Defined.

Lemma webhook_ignores_other_activity_types_sample :
  BotFrameworkInput.webhook sample_input recording_handler
    {| Request.json := Ok (PDict [("type", PStr "conversationUpdate")]) |}
    (sample_world granting_server)
  = (Ok (response_text "success"),
     with_trace [Logged INFO (Plain "Not received message type")]
       (sample_world granting_server)).
Proof.
  apply (webhook_ignores_other_activity_types sample_input recording_handler
           (PDict [("type", PStr "conversationUpdate")])
           (PStr "conversationUpdate") (sample_world granting_server));
    [reflexivity | discriminate].
Defined.

Lemma webhook_classifies_message_sample :
  BotFrameworkInput.webhook sample_input recording_handler
    {| Request.json := Ok (PDict submit_activity) |}
    (sample_world granting_server)
  = (Ok (response_text "success"),
     with_trace
       [ Logged DEBUG (Dump (PDict submit_activity));
         Logged INFO
           (Dump (PDict [ ("text", PStr ("{" +:+ quoted "foo" +:+ ": 1}"));
                          ("metadata", PNone);
                          ("sender_id", PStr "user") ])) ]
       (sample_world granting_server)).
Proof.
  rewrite (webhook_classifies_message sample_input recording_handler
             (sample_world granting_server) submit_activity
             (PDict [("id", PStr "c1")]) (PDict [("id", PStr "bot")])
             (PStr "https://smba.example/") (PDict [("id", PStr "user")])
             (PStr "user") (PDict [("foo", PInt 1)]));
    reflexivity.
Defined.

Lemma ready_world_answers (self : BotFramework.t) (conversation_id : pyval)
  (hp : gmap nat pyval) :
  http_url (activities_uri self conversation_id) = true ->
  activities_answered self conversation_id (with_heap hp ready_world).
Proof. intros Hurl. split; [exact Hurl|]. intros tr m. now eexists. Qed.

Lemma ready_world_valid (n : nat) (hp : gmap nat pyval) :
  (n <= 3000)%nat -> token_valid (with_heap hp ready_world) n.
Proof. intros Hn i Hi. cbn. lia. Qed.

Lemma send_text_message_delivers_paragraphs_sample :
  exists (st' : World) (evs : list Event),
    BotFramework.send_text_message sample_channel (PStr "user")
      ("a" +:+ blank_line +:+ "b" +:+ blank_line +:+ "c") ready_world
    = (Ok tt, st')
    /\ trace st' = trace ready_world ++ evs
    /\ deliveries evs
       = map (fun part =>
                (activities_uri sample_channel (PStr "c1"),
                 Py.json_dumps
                   (PDict
                      [ ("type", PStr "message");
                        ("recipient", PDict [("id", PStr "user")]);
                        ("from", BotFramework.bot sample_channel);
                        ("channelData",
                          PDict [("notification",
                                  PDict [("alert", PStr "true")])]);
                        ("text", PStr part) ])))
           ["a"; "b"; "c"].
Proof.
  destruct (send_text_message_delivers_paragraphs sample_channel (PStr "user")
              ("a" +:+ blank_line +:+ "b" +:+ blank_line +:+ "c") (PStr "c1")
              ready_world eq_refl)
    as (Hreturned & Hreturns & Hpieces).
  destruct Hreturns as [st' Hrun].
  - apply (ready_world_answers sample_channel (PStr "c1") ∅). reflexivity.
  - apply (ready_world_valid _ ∅). rewrite Hpieces. cbn. lia.
  - destruct (Hreturned st' Hrun) as (evs & Htrace & Hdel).
    rewrite Hpieces in Hdel. now exists st', evs.
Defined.

Lemma send_custom_json_fills_absent_fields_sample :
  exists (st' : World) (evs : list Event),
    BotFramework.send_custom_json sample_channel (PStr "user") (object_at 0)
      (ready_with_message [("text", PStr "hi")])
    = (Ok tt, st')
    /\ trace st' = trace (ready_with_message [("text", PStr "hi")]) ++ evs
    /\ deliveries evs
       = [(activities_uri sample_channel (PStr "c1"),
           Py.json_dumps
             (PDict
                [ ("text", PStr "hi");
                  ("type", PStr "message");
                  ("recipient", PDict [("id", PStr "user")]);
                  ("from", BotFramework.bot sample_channel);
                  ("channelData",
                    PDict [("notification",
                            PDict [("alert", PStr "true")])]) ]))].
Proof.
  destruct (send_custom_json_fills_absent_fields sample_channel (PStr "user")
              0 [("text", PStr "hi")]
              (ready_with_message [("text", PStr "hi")]) eq_refl eq_refl)
    as (_ & Hreturned & Hreturns & _ & _ & Hfilled).
  pose proof (Hreturns (PStr "c1")
                {| ok := true;
                   text := "";
                   json := Ok (PDict [ ("access_token", PStr "abc");
                                       ("expires_in", PInt 3600) ]) |}
                eq_refl ltac:(cbn; lia) eq_refl eq_refl) as Hrun.
  destruct (Hreturned _ Hrun) as (conversation_id & evs & Hid & Htrace & Hdel).
  eexists _, evs. split; [exact Hrun|]. split; [exact Htrace|].
  rewrite Hdel, Hfilled. injection Hid as <-. reflexivity.
Defined.

(** C7 fails on a message whose [recipient] is not a dict: the second
    [setdefault] finds the string, which has no such method, and the call
    ends in [AttributeError] with [type] already filled in and nothing
    delivered. *)
Lemma send_custom_json_rejects_text_recipient :
  BotFramework.send_custom_json sample_channel (PStr "user") (object_at 0)
    (with_message [("recipient", PStr "bob")])
  = (Raise AttributeError,
     with_message [("recipient", PStr "bob"); ("type", PStr "message")]).
Proof.
  rewrite (send_custom_json_run sample_channel (PStr "user") 0
             (PDict [("recipient", PStr "bob")])) by reflexivity.
  cbn [run_defaults custom_steps obj_setdefault read_path write_path
         Py.dict_get String.eqb Ascii.eqb Bool.eqb app].
  unfold with_message. now rewrite holding_again.
Qed.

Lemma prepare_message_is_shallow_sample :
  let message_data := [("channelData", PDict [("sound", PStr "off")])] in
  let payload :=
    BotFramework.prepare_message sample_channel (PStr "user") message_data in
  (forall k v, Py.dict_get k message_data = Some v ->
               Py.dict_get k payload = Some v)
  /\ (forall v, Py.dict_get "channelData" message_data = Some v ->
                read_path (PDict payload) ["channelData"; "notification"]
                = read_path v ["notification"])
  /\ (forall v, Py.dict_get "recipient" message_data = Some v ->
                read_path (PDict payload) ["recipient"; "id"]
                = read_path v ["id"])
  /\ (forall k, Py.dict_get k message_data = None ->
                Py.dict_get k payload
                = Py.dict_get k (default_fields sample_channel (PStr "user"))).
Proof.
  apply (prepare_message_is_shallow sample_channel (PStr "user")
           [("channelData", PDict [("sound", PStr "off")])]).
  apply NoDup_singleton.
Defined.

(** an element that brings its own [channelData]: the payload has the
    element's, and no [notification] in it *)
Example prepare_message_replaces_channel_data :
  BotFramework.prepare_message sample_channel (PStr "user")
    [("channelData", PDict [("sound", PStr "off")])]
  = [ ("type", PStr "message");
      ("recipient", PDict [("id", PStr "user")]);
      ("from", PDict [("id", PStr "bot")]);
      ("channelData", PDict [("sound", PStr "off")]);
      ("text", PStr "") ].
Proof. reflexivity. Qed.

Lemma send_custom_json_mutates_argument_sample :
  exists d : pydict,
    heap (with_message [("text", PStr "hi")]) !! 0%nat = Some (PDict d)
    /\ heap (snd (BotFramework.send_custom_json sample_channel (PStr "user")
                    (object_at 0) (with_message [("text", PStr "hi")])))
       = <[0%nat := PDict (with_defaults sample_channel (PStr "user") d)]>
           (heap (with_message [("text", PStr "hi")]))
    /\ Forall
         (fun p =>
            is_Some
              (read_path
                 (object
                    (snd (BotFramework.send_custom_json sample_channel
                            (PStr "user") (object_at 0)
                            (with_message [("text", PStr "hi")])))
                    0)
                 p))
         [ ["type"]; ["recipient"; "id"]; ["from"];
           ["channelData"; "notification"; "alert"]; ["text"] ].
Proof.
  apply (send_custom_json_mutates_argument sample_channel (PStr "user") 0
           (with_message [("text", PStr "hi")])).
  vm_compute. reflexivity.
Defined.

Example webhook_attachments_first :
  BotFrameworkInput.webhook sample_input recording_handler
    {| Request.json := Ok (PDict picture_activity) |}
    (sample_world granting_server)
  = (Ok (response_text "success"),
     with_trace
       [ Logged DEBUG (Dump (PDict picture_activity));
         Logged INFO
           (Dump
              (PDict
                 [ ("text", PStr "");
                   ("metadata",
                     PDict
                       [("attachments",
                         PList [PDict [("contentUrl",
                                        PStr "https://x/y.png")]])]);
                   ("sender_id", PStr "user") ])) ]
       (sample_world granting_server)).
Proof. reflexivity. Qed.

Example webhook_plain_text :
  BotFrameworkInput.webhook sample_input recording_handler
    {| Request.json :=
         Ok (PDict (anonymous_activity
                      ++ [("from", PDict [("id", PStr "user")])])) |}
    (sample_world granting_server)
  = (Ok (response_text "success"),
     with_trace
       [ Logged DEBUG
           (Dump (PDict (anonymous_activity
                           ++ [("from", PDict [("id", PStr "user")])])));
         Logged INFO
           (Dump (PDict [ ("text", PStr "hello");
                          ("metadata", PNone);
                          ("sender_id", PStr "user") ])) ]
       (sample_world granting_server)).
Proof. reflexivity. Qed.

(** a failure of the backend is logged and the activity acknowledged *)
Example webhook_survives_backend_failure :
  BotFrameworkInput.webhook sample_input failing_handler
    {| Request.json := Ok (PDict submit_activity) |}
    (sample_world granting_server)
  = (Ok (response_text "success"),
     with_trace
       [ Logged DEBUG (Dump (PDict submit_activity));
         Logged ERROR
           (WithException "Exception when trying to handle message.{0}"
              (Failure "backend"));
         Logged DEBUG (Traceback (Failure "backend")) ]
       (sample_world granting_server)).
Proof. reflexivity. Qed.

(** the three activities of the text [a], blank line, [b], blank line, [c] *)
Example send_text_message_three_paragraphs :
  map snd
    (deliveries
       (trace (snd (BotFramework.send_text_message sample_channel
                      (PStr "user")
                      ("a" +:+ blank_line +:+ "b" +:+ blank_line +:+ "c")
                      (sample_world granting_server)))))
  = map (fun part =>
           "{" +:+ quoted "type" +:+ ": " +:+ quoted "message" +:+ ", "
           +:+ quoted "recipient" +:+ ": {" +:+ quoted "id" +:+ ": "
           +:+ quoted "user" +:+ "}, "
           +:+ quoted "from" +:+ ": {" +:+ quoted "id" +:+ ": "
           +:+ quoted "bot" +:+ "}, "
           +:+ quoted "channelData" +:+ ": {" +:+ quoted "notification"
           +:+ ": {" +:+ quoted "alert" +:+ ": " +:+ quoted "true" +:+ "}}, "
           +:+ quoted "text" +:+ ": " +:+ quoted part +:+ "}")
      ["a"; "b"; "c"].
Proof. vm_compute. reflexivity. Qed.

(** * Further properties *)

(** ** The token cache over several calls *)

Lemma repeatedly_next {A : Type} (n : nat) (m : M A) (st : World) :
  repeatedly (S n) m st
  = match m st with
    | (Ok x, st1) =>
        match repeatedly n m st1 with
        | (Ok xs, st2) => (Ok (x :: xs), st2)
        | (Raise e, st2) => (Raise e, st2)
        end
    | (Raise e, st1) => (Raise e, st1)
    end.
Proof.
  cbn [repeatedly]. unfold bind, ret.
  destruct (m st) as [[x|e] st1]; [|reflexivity].
  now destruct (repeatedly n m st1) as [[xs|e] st2].
Qed.

Lemma bind_raise {A B : Type} (m : M A) (k : A -> M B) (e : exn)
  (st st' : World) :
  m st = (Raise e, st') -> bind m k st = (Raise e, st').
Proof. intros Hm. unfold bind. now rewrite Hm. Qed.

(** X1. The two class attributes change together or not at all: after any
    call of [_get_headers], whatever it returned or raised, either both
    are what they were, or the token request was answered with a success
    whose body carries [access_token] and an [expires_in] that [int]
    accepts; then the header map is the bearer map of that token, the date
    is the reading of the clock taken after the answer plus that many
    seconds, a date of the calendar, and the header map is what the call
    returned. *)
Theorem get_headers_cache_all_or_nothing (self : BotFramework.t) (st : World) :
  let out := BotFramework._get_headers self st in
  (token_expiration_date (snd out) = token_expiration_date st
   /\ headers (snd out) = headers st)
  \/ (exists (response : Response) (token_data access_token lifetime : pyval)
             (seconds : Z),
        server st (trace st) (token_request self) = Ok response
        /\ ok response = true
        /\ json response = Ok token_data
        /\ Py.getitem token_data "access_token" = Ok access_token
        /\ Py.getitem token_data "expires_in" = Ok lifetime
        /\ Py.int lifetime = Ok seconds
        /\ headers (snd out) = Some (bearer access_token)
        /\ token_expiration_date (snd out)
           = clock st (S (ticks st)) + seconds * 1000000
        /\ 0 <= token_expiration_date (snd out) <= datetime_max
        /\ fst out = Ok (Some (bearer access_token))).
Proof.
  intros out. subst out.
  destruct (Z.ltb_spec (token_expiration_date st) (clock st (ticks st)))
    as [Hexpired|Hfresh].
  2:{ left. now rewrite get_headers_fresh. }
  rewrite get_headers_expired by assumption.
  unfold after_token_response, bind, lift.
  destruct (server st (trace st) (token_request self)) as [response|];
    [|now left].
  destruct (ok response) eqn:Hok; [|now left].
  destruct (json response) as [token_data|] eqn:Hjson; [|now left].
  destruct (Py.getitem token_data "access_token") as [access_token|]
    eqn:Htoken; [|now left].
  destruct (Py.getitem token_data "expires_in") as [lifetime|]
    eqn:Hlifetime; [|now left].
  destruct (Py.int lifetime) as [seconds|] eqn:Hint; [|now left].
  destruct (timedelta_seconds seconds) as [delta|] eqn:Hdelta; [|now left].
  apply timedelta_seconds_sound in Hdelta as ->.
  cbn [now fst snd clock ticks with_trace with_ticks].
  destruct (datetime_add _ _) as [date|] eqn:Hdate; [|now left].
  apply datetime_add_sound in Hdate as [-> Hrange].
  right. exists response, token_data, access_token, lifetime, seconds.
  cbn. repeat split; first [reflexivity | assumption | apply Hrange].
Qed.

(** X2. A token just granted is reused: when the call that follows a
    successful refresh reads the clock no later than the new expiration
    date, it returns the same header map and posts nothing, so the two
    calls together made the one token request. *)
Theorem get_headers_refresh_then_reuse
  (self : BotFramework.t) (st : World) (response : Response)
  (token_data : pydict) (access_token lifetime : pyval) (seconds : Z) :
  token_expiration_date st < clock st (ticks st) ->
  server st (trace st) (token_request self) = Ok response ->
  ok response = true ->
  json response = Ok (PDict token_data) ->
  Py.dict_get "access_token" token_data = Some access_token ->
  Py.dict_get "expires_in" token_data = Some lifetime ->
  Py.int lifetime = Ok seconds ->
  -999999999 <= seconds / 86400 <= 999999999 ->
  0 <= clock st (S (ticks st)) + seconds * 1000000 <= datetime_max ->
  clock st (S (S (ticks st)))
  <= clock st (S (ticks st)) + seconds * 1000000 ->
  exists st',
    repeatedly 2 (BotFramework._get_headers self) st
    = (Ok [Some (bearer access_token); Some (bearer access_token)], st')
    /\ posts (trace st') = posts (trace st) ++ [token_request self]
    /\ headers st' = Some (bearer access_token).
Proof.
  intros Hexpired Hanswer Hok Hjson Htoken Hlifetime Hint Hdelta Hdate Hvalid.
  rewrite repeatedly_next.
  rewrite (get_headers_granted self st response token_data access_token
             lifetime seconds Hexpired Hanswer Hok Hjson Htoken Hlifetime
             Hint Hdelta Hdate).
  set (st1 := with_cache _ _ _).
  assert (Hfresh : clock st1 (ticks st1) <= token_expiration_date st1)
    by exact Hvalid.
  rewrite repeatedly_next, (get_headers_fresh self st1 Hfresh).
  eexists. split; [reflexivity|]. cbn.
  split; [|reflexivity]. now rewrite posts_app.
Qed.

(** X3. A lifetime that is not positive buys nothing: when the granted
    [expires_in] is zero or negative (and the date it gives is still one
    of the calendar) and the clock moves on, the very next call finds the
    token expired and posts a token request again. *)
Theorem get_headers_nonpositive_lifetime
  (self : BotFramework.t) (st : World) (response : Response)
  (token_data : pydict) (access_token lifetime : pyval) (seconds : Z) :
  token_expiration_date st < clock st (ticks st) ->
  server st (trace st) (token_request self) = Ok response ->
  ok response = true ->
  json response = Ok (PDict token_data) ->
  Py.dict_get "access_token" token_data = Some access_token ->
  Py.dict_get "expires_in" token_data = Some lifetime ->
  Py.int lifetime = Ok seconds ->
  seconds <= 0 ->
  -999999999 <= seconds / 86400 ->
  0 <= clock st (S (ticks st)) + seconds * 1000000 <= datetime_max ->
  clock st (S (ticks st)) < clock st (S (S (ticks st))) ->
  posts (trace (snd (repeatedly 2 (BotFramework._get_headers self) st)))
  = posts (trace st) ++ [token_request self; token_request self].
Proof.
  intros Hexpired Hanswer Hok Hjson Htoken Hlifetime Hint Hseconds Hdelta
    Hdate Hclock.
  assert (Hdays : -999999999 <= seconds / 86400 <= 999999999).
  { split; [exact Hdelta|].
    pose proof (Z.div_le_upper_bound seconds 86400 0 ltac:(lia)). lia. }
  rewrite repeatedly_next.
  rewrite (get_headers_granted self st response token_data access_token
             lifetime seconds Hexpired Hanswer Hok Hjson Htoken Hlifetime
             Hint Hdays Hdate).
  set (st1 := with_cache _ _ _).
  assert (Hexpired1 : token_expiration_date st1 < clock st1 (ticks st1))
    by (cbn; lia).
  pose proof (get_headers_posts_once self st1 Hexpired1) as Hposts.
  rewrite repeatedly_next.
  destruct (BotFramework._get_headers self st1) as [[h|e] st2];
    cbn in Hposts |- *; rewrite Hposts; cbn; rewrite posts_app; cbn;
    now rewrite <- app_assoc.
Qed.

(** X4. A refusal is never remembered: while the identity service refuses
    and the cached date stays in the past, each of [n] calls in a row posts
    a token request of its own, logs the error and returns [None], and the
    class attributes stay as they were. *)
Theorem get_headers_refused_every_time
  (self : BotFramework.t) (st : World) (n : nat) :
  (forall i : nat, (i < n)%nat ->
     token_expiration_date st < clock st (ticks st + i)) ->
  (forall tr, exists response : Response,
     server st tr (token_request self) = Ok response
     /\ ok response = false) ->
  exists st',
    repeatedly n (BotFramework._get_headers self) st
    = (Ok (repeat None n), st')
    /\ posts (trace st') = posts (trace st) ++ repeat (token_request self) n
    /\ token_expiration_date st' = token_expiration_date st
    /\ headers st' = headers st.
Proof.
  revert st. induction n as [|n IH]; intros st Hexpired Hrefused.
  - exists st. cbn. now rewrite app_nil_r.
  - rewrite repeatedly_next.
    assert (Hnow : token_expiration_date st < clock st (ticks st)).
    { specialize (Hexpired O ltac:(lia)).
      now rewrite Nat.add_0_r in Hexpired. }
    destruct (Hrefused (trace st)) as (response & Hanswer & Hfail).
    rewrite (get_headers_refused self st response Hnow Hanswer Hfail).
    set (st1 := with_trace _ _).
    destruct (IH st1) as (st' & Hrun & Hposts & Hdate & Hheaders).
    + intros i Hi. specialize (Hexpired (S i) ltac:(lia)).
      cbn. now replace (S (ticks st + i)) with (ticks st + S i)%nat by lia.
    + exact Hrefused.
    + exists st'. rewrite Hrun.
      split; [reflexivity|]. split; [|now split].
      rewrite Hposts. cbn. rewrite posts_app. cbn.
      now rewrite <- app_assoc.
Qed.

(** X5. A success that grants nothing is an error: when the identity
    service answers with a success whose body has no usable
    [access_token] and [expires_in] ([json()] fails, a key is missing,
    [int] or [timedelta] rejects the lifetime), [_get_headers] raises
    after its one post and leaves the class attributes alone, and a [send]
    in that state raises the same and posts no activity. *)
Theorem get_headers_incomplete_answer
  (self : BotFramework.t) (message_data conversation_id : pyval)
  (st : World) (response : Response) :
  token_expiration_date st < clock st (ticks st) ->
  server st (trace st) (token_request self) = Ok response ->
  ok response = true ->
  grants response = false ->
  Py.getitem (BotFramework.conversation self) "id" = Ok conversation_id ->
  exists e : exn,
    BotFramework._get_headers self st
    = (Raise e,
       with_trace (trace st ++ [Posted (token_request self)])
         (with_ticks (S (ticks st)) st))
    /\ BotFramework.send self message_data st
       = (Raise e,
          with_trace (trace st ++ [Posted (token_request self)])
            (with_ticks (S (ticks st)) st)).
Proof.
  intros Hexpired Hanswer Hok Hgrants Hid.
  assert (Hget : exists e : exn,
             BotFramework._get_headers self st
             = (Raise e,
                with_trace (trace st ++ [Posted (token_request self)])
                  (with_ticks (S (ticks st)) st))).
  { rewrite get_headers_expired by assumption. rewrite Hanswer.
    unfold after_token_response, bind, lift, grants in *. rewrite Hok.
    destruct (json response) as [token_data|e]; [|now exists e].
    destruct (Py.getitem token_data "access_token") as [access_token|e];
      [|now exists e].
    destruct (Py.getitem token_data "expires_in") as [lifetime|e];
      [|now exists e].
    destruct (Py.int lifetime) as [seconds|e]; [|now exists e].
    destruct (timedelta_seconds seconds) as [delta|e];
      [discriminate | now exists e]. }
  destruct Hget as [e Hget]. exists e. split; [exact Hget|].
  unfold BotFramework.send, bind, lift. now rewrite Hid, Hget.
Qed.

(** X21. A lifetime that leads out of the calendar is an error too: when
    the clock reading taken after the answer plus the granted seconds is
    no date between the years 1 and 9999, the addition raises
    [OverflowError]; by then the request has been posted and the clock
    read a second time, and nothing is cached. *)
Theorem get_headers_date_out_of_range
  (self : BotFramework.t) (st : World) (response : Response)
  (token_data : pydict) (access_token lifetime : pyval) (seconds : Z) :
  token_expiration_date st < clock st (ticks st) ->
  server st (trace st) (token_request self) = Ok response ->
  ok response = true ->
  json response = Ok (PDict token_data) ->
  Py.dict_get "access_token" token_data = Some access_token ->
  Py.dict_get "expires_in" token_data = Some lifetime ->
  Py.int lifetime = Ok seconds ->
  -999999999 <= seconds / 86400 <= 999999999 ->
  ~ 0 <= clock st (S (ticks st)) + seconds * 1000000 <= datetime_max ->
  BotFramework._get_headers self st
  = (Raise OverflowError,
     with_trace (trace st ++ [Posted (token_request self)])
       (with_ticks (S (S (ticks st))) st)).
Proof.
  intros Hexpired Hanswer Hok Hjson Htoken Hlifetime Hint Hdelta Hdate.
  rewrite get_headers_expired by assumption. rewrite Hanswer.
  unfold after_token_response, bind, lift.
  rewrite Hok, Hjson. cbn [Py.getitem].
  rewrite Htoken, Hlifetime, Hint, (timedelta_seconds_ok _ Hdelta).
  cbn [now clock ticks with_trace with_ticks].
  now rewrite (datetime_add_out _ _ Hdate).
Qed.

(** ** Sending *)

(** X6. With a token that is still valid and a post that is answered,
    [send] makes exactly that one post: the JSON text of the message, to
    the activities address of the conversation, under the cached headers.
    It returns normally whatever the answer says; an answer that is not a
    success is logged with its text, and nothing is tried again. *)
Theorem send_posts_once_and_logs_failure
  (self : BotFramework.t) (message_data conversation_id : pyval)
  (st : World) (response : Response) :
  let request :=
    activity_request self conversation_id (headers st) message_data in
  Py.getitem (BotFramework.conversation self) "id" = Ok conversation_id ->
  clock st (ticks st) <= token_expiration_date st ->
  http_url (activities_uri self conversation_id) = true ->
  server st (trace st) request = Ok response ->
  BotFramework.send self message_data st
  = (Ok tt,
     with_trace
       (trace st
        ++ Posted request
           :: (if ok response then []
               else [Logged ERROR
                       (WithText
                          "Error trying to send botframework messge. Response: %s"
                          (text response))]))
       (with_ticks (S (ticks st)) st)).
Proof.
  intros request Hid Hfresh Hurl Hanswer.
  now apply (send_valid self message_data conversation_id st response).
Qed.

(** X7. A channel whose conversation has no usable [id] cannot send: the
    lookup raises before the token is looked at, so [send] ends in that
    exception with nothing posted, nothing logged and the clock not read.
    The same holds for every text given to [send_text_message], the empty
    one too, and for [send_image_url] and [send_text_with_buttons]. *)
Theorem send_needs_conversation_id
  (self : BotFramework.t) (e : exn) (st : World) :
  Py.getitem (BotFramework.conversation self) "id" = Raise e ->
  (forall message_data, BotFramework.send self message_data st = (Raise e, st))
  /\ (forall recipient_id text,
        BotFramework.send_text_message self recipient_id text st
        = (Raise e, st))
  /\ (forall recipient_id image,
        BotFramework.send_image_url self recipient_id image st
        = (Raise e, st))
  /\ (forall recipient_id text buttons,
        BotFramework.send_text_with_buttons self recipient_id text buttons st
        = (Raise e, st)).
Proof.
  intros Hid.
  assert (Hsend : forall message_data,
             BotFramework.send self message_data st = (Raise e, st)).
  { intros message_data. unfold BotFramework.send, bind, lift.
    now rewrite Hid. }
  repeat split; try (intros; apply Hsend).
  intros recipient_id text. unfold BotFramework.send_text_message, Py.split.
  pose proof (split_from_not_nil blank_line O EmptyString text) as Hpieces.
  destruct (Py.split_from blank_line O EmptyString text) as [|part parts];
    [contradiction|].
  cbn [for_each]. apply bind_raise, Hsend.
Qed.

(** X8. With a token that is still valid and a post that is answered,
    [send_image_url] makes one post and returns: the activity has the
    default fields, with an empty text, and as only attachment a hero card
    whose one image is the given url. *)
Theorem send_image_url_delivers_card
  (self : BotFramework.t) (recipient_id image conversation_id : pyval)
  (st : World) (response : Response) :
  let request :=
    activity_request self conversation_id (headers st)
      (PDict (default_fields self recipient_id
              ++ [("attachments", PList [image_card image])])) in
  Py.getitem (BotFramework.conversation self) "id" = Ok conversation_id ->
  clock st (ticks st) <= token_expiration_date st ->
  http_url (activities_uri self conversation_id) = true ->
  server st (trace st) request = Ok response ->
  BotFramework.send_image_url self recipient_id image st
  = (Ok tt,
     with_trace (trace st ++ sent request response)
       (with_ticks (S (ticks st)) st)).
Proof.
  intros request Hid Hfresh Hurl Hanswer.
  unfold BotFramework.send_image_url.
  now apply (send_valid self _ conversation_id st response).
Qed.

(** X9. With a token that is still valid and a post that is answered,
    [send_text_with_buttons] makes one post and returns: the activity has
    the default fields, with an empty text, and as only attachment a hero
    card whose subtitle is the given text and whose buttons are the given
    buttons, unchanged. *)
Theorem send_text_with_buttons_delivers_card
  (self : BotFramework.t) (recipient_id text buttons conversation_id : pyval)
  (st : World) (response : Response) :
  let request :=
    activity_request self conversation_id (headers st)
      (PDict (default_fields self recipient_id
              ++ [("attachments", PList [buttons_card text buttons])])) in
  Py.getitem (BotFramework.conversation self) "id" = Ok conversation_id ->
  clock st (ticks st) <= token_expiration_date st ->
  http_url (activities_uri self conversation_id) = true ->
  server st (trace st) request = Ok response ->
  BotFramework.send_text_with_buttons self recipient_id text buttons st
  = (Ok tt,
     with_trace (trace st ++ sent request response)
       (with_ticks (S (ticks st)) st)).
Proof.
  intros request Hid Hfresh Hurl Hanswer.
  unfold BotFramework.send_text_with_buttons.
  now apply (send_valid self _ conversation_id st response).
Qed.

(** ** The pieces of a text *)

Lemma string_app_assoc (a b c : string) :
  (a +:+ b) +:+ c = a +:+ (b +:+ c).
Proof.
  induction a as [|x a IH]; [reflexivity|].
  change (String x ((a +:+ b) +:+ c) = String x (a +:+ (b +:+ c))).
  now rewrite IH.
Qed.

Lemma starts_with_app (p x y : string) :
  Py.starts_with p x = true -> Py.starts_with p (x +:+ y) = true.
Proof.
  revert x. induction p as [|a p IH]; intros x Hp; [reflexivity|].
  destruct x as [|b x]; [discriminate|].
  cbn [Py.starts_with] in Hp. apply andb_prop in Hp as [Hab Hp].
  change (Ascii.eqb a b && Py.starts_with p (x +:+ y) = true).
  now rewrite Hab, (IH x Hp).
Qed.

Lemma begins_inside_weaken (sep u s : string) :
  begins_inside sep u s = false -> occurs sep u = false.
Proof.
  unfold occurs. induction u as [|c u IH]; [reflexivity|].
  cbn [begins_inside]. intros Hu.
  apply orb_false_iff in Hu as [Hhere Hlater].
  apply orb_false_iff. split; [|now apply IH].
  destruct (Py.starts_with sep (String c u +:+ EmptyString)) eqn:Hfound;
    [|reflexivity].
  apply (starts_with_app _ _ s) in Hfound.
  rewrite string_app_assoc in Hfound.
  change (EmptyString +:+ s) with s in Hfound. congruence.
Qed.

Lemma begins_inside_snoc (sep u : string) (c : ascii) (s : string) :
  begins_inside sep (u +:+ String c EmptyString) s
  = begins_inside sep u (String c s) || Py.starts_with sep (String c s).
Proof.
  induction u as [|x u IH].
  - change (EmptyString +:+ String c EmptyString) with (String c EmptyString).
    cbn [begins_inside].
    change (String c EmptyString +:+ s) with (String c s).
    now rewrite orb_false_r.
  - change (String x u +:+ String c EmptyString)
      with (String x (u +:+ String c EmptyString)).
    cbn [begins_inside]. rewrite IH.
    change (String x (u +:+ String c EmptyString) +:+ s)
      with (String x ((u +:+ String c EmptyString) +:+ s)).
    rewrite string_app_assoc.
    change (String c EmptyString +:+ s) with (String c s).
    change (String x (u +:+ String c s)) with (String x u +:+ String c s).
    now rewrite orb_assoc.
Qed.

Lemma rev_cons (c : ascii) (cur : string) :
  String.rev (String c cur) = String.rev cur +:+ String c EmptyString.
Proof. unfold String.rev. cbn. now rewrite rev_app_append. Qed.

Lemma split_from_pieces_clean (sep : string) :
  sep <> EmptyString ->
  forall s : string,
    (forall cur,
       begins_inside sep (String.rev cur) s = false ->
       Forall (fun piece => occurs sep piece = false)
         (Py.split_from sep O cur s))
    /\ (forall skip,
          Forall (fun piece => occurs sep piece = false)
            (Py.split_from sep skip EmptyString s)).
Proof.
  intros Hsep.
  assert (Hempty : occurs sep EmptyString = false) by reflexivity.
  induction s as [|c s [IHscan IHskip]].
  - split.
    + intros cur Hclean. cbn. constructor; [|constructor].
      now apply (begins_inside_weaken _ _ EmptyString).
    + intros skip. destruct skip; cbn; now repeat constructor.
  - assert (Hscan : forall cur,
               begins_inside sep (String.rev cur) (String c s) = false ->
               Forall (fun piece => occurs sep piece = false)
                 (Py.split_from sep O cur (String c s))).
    { intros cur Hclean. cbn [Py.split_from].
      destruct (Py.starts_with sep (String c s)) eqn:Hfound.
      - constructor; [|apply IHskip].
        now apply (begins_inside_weaken _ _ (String c s)).
      - apply IHscan. rewrite rev_cons, begins_inside_snoc.
        now rewrite Hclean, Hfound. }
    split; [exact Hscan|].
    intros [|skip]; [now apply Hscan | apply IHskip].
Qed.

(** X10. What [send_text_message] sends are the pieces of the text and
    nothing else.  Whatever the text, the empty one too, there is at
    least one piece, no piece has a blank line in it, and the pieces, put
    together again with blank lines between them, are the text.  While
    the channel knows the id of its conversation, the token stays good and
    the posts are answered, the call returns, and its posts are the
    activities of the pieces, one each, in their order. *)
Theorem send_text_message_pieces
  (self : BotFramework.t) (recipient_id : pyval) (text : string) :
  let pieces := Py.split blank_line text in
  pieces <> []
  /\ Forall (fun piece => occurs blank_line piece = false) pieces
  /\ Py.join blank_line pieces = text
  /\ forall (conversation_id : pyval) (st : World),
       Py.getitem (BotFramework.conversation self) "id"
       = Ok conversation_id ->
       activities_answered self conversation_id st ->
       token_valid st (length pieces) ->
       exists (st' : World) (evs : list Event),
         BotFramework.send_text_message self recipient_id text st
         = (Ok tt, st')
         /\ trace st' = trace st ++ evs
         /\ posts evs
            = map (fun piece =>
                     activity_request self conversation_id (headers st)
                       (PDict (BotFramework.prepare_message self recipient_id
                                 [("text", PStr piece)])))
                pieces.
Proof.
  intros pieces.
  assert (Hsep : blank_line <> EmptyString) by discriminate.
  split; [apply split_from_not_nil|].
  split; [now apply (split_from_pieces_clean blank_line Hsep text)|].
  split; [now apply join_split|].
  intros conversation_id st Hid Hanswered Hvalid.
  unfold BotFramework.send_text_message.
  destruct (for_each_send_valid self conversation_id
              (fun piece => PDict (BotFramework.prepare_message self
                                     recipient_id [("text", PStr piece)]))
              pieces st Hid Hanswered Hvalid)
    as (st' & evs & Hrun & (Htrace & _) & _ & _ & Hposts).
  now exists st', evs.
Qed.

(** ** Payloads as dicts *)

Lemma elem_of_keys_dict_set (k k' : string) (v : pyval) (d : pydict) :
  k' ∈ Py.keys (Py.dict_set k v d) <-> k' = k \/ k' ∈ Py.keys d.
Proof.
  induction d as [|[k0 v0] d IH]; cbn.
  - rewrite list_elem_of_singleton. split; [now left|].
    intros [H|H]; [assumption | now apply elem_of_nil in H].
  - destruct (String.eqb_spec k k0) as [->|Hk]; cbn;
      rewrite !elem_of_cons; [tauto|].
    rewrite IH. tauto.
Qed.

Lemma NoDup_keys_dict_set (k : string) (v : pyval) (d : pydict) :
  NoDup (Py.keys d) -> NoDup (Py.keys (Py.dict_set k v d)).
Proof.
  induction d as [|[k0 v0] d IH]; cbn; intros Hd.
  - apply NoDup_singleton.
  - apply NoDup_cons in Hd as [Hfresh Hd].
    destruct (String.eqb_spec k k0) as [->|Hk]; cbn.
    + now apply NoDup_cons.
    + apply NoDup_cons. split; [|now apply IH].
      rewrite elem_of_keys_dict_set. intros [H|H]; [congruence | contradiction].
Qed.

Lemma dict_update_keys (d m : pydict) :
  NoDup (Py.keys d) ->
  NoDup (Py.keys (Py.dict_update d m))
  /\ forall k, k ∈ Py.keys (Py.dict_update d m)
               <-> k ∈ Py.keys d \/ k ∈ Py.keys m.
Proof.
  unfold Py.dict_update. revert d.
  induction m as [|[k0 v0] m IH]; intros d Hd; cbn.
  - split; [assumption|]. intros k. rewrite elem_of_nil. tauto.
  - destruct (IH (Py.dict_set k0 v0 d) (NoDup_keys_dict_set _ _ _ Hd))
      as [Hnodup Hkeys].
    split; [assumption|]. intros k.
    rewrite Hkeys, elem_of_keys_dict_set, elem_of_cons. tauto.
Qed.

(** X11. Whatever [message_data] holds, the payload of [prepare_message]
    is a dict with each key once, and its keys are the five default keys
    together with the keys of [message_data]: no default is ever dropped
    and no key is invented. *)
Theorem prepare_message_keys
  (self : BotFramework.t) (recipient_id : pyval) (message_data : pydict) :
  let payload := BotFramework.prepare_message self recipient_id message_data in
  NoDup (Py.keys payload)
  /\ forall k, k ∈ Py.keys payload
               <-> k ∈ default_keys \/ k ∈ Py.keys message_data.
Proof.
  intros payload.
  apply (dict_update_keys (default_fields self recipient_id) message_data).
  cbn.
  repeat (apply NoDup_cons;
          split; [rewrite ?elem_of_cons, elem_of_nil; intuition discriminate|]).
  apply NoDup_nil_2.
Qed.

(** ** Filling in place, again *)

Lemma fill_present (k : string) (v x : pyval) (d : pydict) :
  Py.dict_get k d = Some x -> fill k v d = d.
Proof. intros Hx. unfold fill. now rewrite Hx. Qed.

Lemma fill_in_present (k : string) (f : pydict -> pydict)
  (inner d : pydict) :
  Py.dict_get k d = Some (PDict inner) -> f inner = inner ->
  fill_in k f d = d.
Proof.
  intros Hk Hf. unfold fill_in.
  rewrite (fill_present _ _ _ _ Hk), Hk, Hf.
  now apply dict_set_same.
Qed.

Lemma read_path_two (d : pydict) (k1 k2 : string) (x : pyval) :
  read_path (PDict d) [k1; k2] = Some x ->
  exists inner, Py.dict_get k1 d = Some (PDict inner)
                /\ Py.dict_get k2 inner = Some x.
Proof.
  cbn. destruct (Py.dict_get k1 d) as [[| | | | |inner]|]; try discriminate.
  destruct (Py.dict_get k2 inner) eqn:Hx; [|discriminate].
  intros [= ->]. now exists inner.
Qed.

Lemma with_defaults_filled (self : BotFramework.t) (recipient_id : pyval)
  (d : pydict) :
  fillable d = true ->
  let d' := with_defaults self recipient_id d in
  fillable d' = true /\ with_defaults self recipient_id d' = d'.
Proof.
  intros Hfill d'.
  destruct (with_defaults_fields self recipient_id d Hfill)
    as (Htype & Hrecipient & Hfrom & Halert & Htext).
  fold d' in Htype, Hrecipient, Hfrom, Halert, Htext.
  apply read_path_two in Hrecipient as (r & Hr & Hrid).
  cbn [read_path] in Htype, Hfrom, Htext, Halert.
  destruct (Py.dict_get "type" d') as [ty|] eqn:Hty; [|discriminate].
  destruct (Py.dict_get "from" d') as [fr|] eqn:Hfr; [|discriminate].
  destruct (Py.dict_get "text" d') as [tx|] eqn:Htx; [|discriminate].
  destruct (Py.dict_get "channelData" d') as [[| | | | |c]|] eqn:Hc;
    try discriminate.
  destruct (Py.dict_get "notification" c) as [[| | | | |n]|] eqn:Hn;
    try discriminate.
  destruct (Py.dict_get "alert" n) as [al|] eqn:Hal; [|discriminate].
  split.
  - unfold fillable. now rewrite Hr, Hc, Hn.
  - unfold with_defaults at 1.
    rewrite (fill_present _ _ _ _ Hty).
    rewrite (fill_in_present _ _ r _ Hr (fill_present _ _ _ _ Hrid)).
    rewrite (fill_present _ _ _ _ Hfr).
    rewrite (fill_in_present _ _ c _ Hc
               (fill_in_present _ _ n _ Hn (fill_present _ _ _ _ Hal))).
    apply (fill_present _ _ _ _ Htx).
Qed.

(** X12. Filling is done once: a second [send_custom_json] on the same
    message finds every default in place, leaves the object exactly as the
    first call left it, and posts the same payload again.  (The channel
    knows the id of its conversation, the token stays good and the posts
    are answered, so that both calls return.) *)
Theorem send_custom_json_twice
  (self : BotFramework.t) (recipient_id : pyval) (a : nat) (d : pydict)
  (conversation_id : pyval) (st : World) :
  heap st !! a = Some (PDict d) ->
  fillable d = true ->
  Py.getitem (BotFramework.conversation self) "id" = Ok conversation_id ->
  activities_answered self conversation_id st ->
  token_valid st 2 ->
  let request :=
    activity_request self conversation_id (headers st)
      (PDict (with_defaults self recipient_id d)) in
  exists st1 st2 evs1 evs2,
    BotFramework.send_custom_json self recipient_id (object_at a) st
    = (Ok tt, st1)
    /\ BotFramework.send_custom_json self recipient_id (object_at a) st1
       = (Ok tt, st2)
    /\ trace st1 = trace st ++ evs1
    /\ trace st2 = trace st1 ++ evs2
    /\ posts evs1 = [request]
    /\ posts evs2 = [request]
    /\ heap st2 = heap st1.
Proof.
  intros Hobject Hfill Hid [Hurl Hanswer] Hvalid request.
  set (d' := with_defaults self recipient_id d) in *.
  destruct (with_defaults_filled self recipient_id d Hfill) as [Hfill' Hsame].
  fold d' in Hfill', Hsame.
  assert (Hfresh : clock st (ticks st) <= token_expiration_date st).
  { specialize (Hvalid O ltac:(lia)). now rewrite Nat.add_0_r in Hvalid. }
  assert (Hfresh1 : clock st (S (ticks st)) <= token_expiration_date st).
  { specialize (Hvalid 1%nat ltac:(lia)).
    now replace (ticks st + 1)%nat with (S (ticks st)) in Hvalid by lia. }
  (* the first call *)
  pose proof (send_custom_json_run self recipient_id a _ st Hobject) as Hrun1.
  rewrite (run_defaults_fillable self recipient_id d Hfill) in Hrun1.
  fold d' in Hrun1.
  destruct (Hanswer (trace st) (PDict d')) as [response1 Hresponse1].
  rewrite (send_valid self (PDict d') conversation_id
             (holding a (PDict d') st) response1 Hid Hfresh Hurl Hresponse1)
    in Hrun1.
  cbn [headers holding with_heap trace ticks] in Hrun1. fold request in Hrun1.
  set (st1 := with_trace _ _) in Hrun1.
  (* the second call *)
  assert (Hobject1 : heap st1 !! a = Some (PDict d'))
    by apply lookup_insert_eq.
  pose proof (send_custom_json_run self recipient_id a _ st1 Hobject1)
    as Hrun2.
  rewrite (run_defaults_fillable self recipient_id d' Hfill'), Hsame in Hrun2.
  rewrite (holding_same a (PDict d') st1 Hobject1) in Hrun2.
  destruct (Hanswer (trace st1) (PDict d')) as [response2 Hresponse2].
  rewrite (send_valid self (PDict d') conversation_id st1 response2
             Hid Hfresh1 Hurl Hresponse2) in Hrun2.
  cbn [headers with_trace with_ticks holding with_heap] in Hrun2.
  fold request in Hrun2.
  eexists st1, _, (sent request response1), (sent request response2).
  split; [exact Hrun1|]. split; [exact Hrun2|].
  rewrite !posts_sent. now repeat split.
Qed.

(** X13. A [recipient] that is not a dict stops [send_custom_json] half
    way: the call raises [AttributeError] and posts nothing, but the
    caller's message has by then received the default [type] if it had
    none. *)
Theorem send_custom_json_leaves_type_behind
  (self : BotFramework.t) (recipient_id : pyval) (a : nat) (d : pydict)
  (recipient : pyval) (st : World) :
  heap st !! a = Some (PDict d) ->
  Py.dict_get "recipient" d = Some recipient ->
  is_dict recipient = false ->
  BotFramework.send_custom_json self recipient_id (object_at a) st
  = (Raise AttributeError,
     holding a (PDict (fill "type" (PStr "message") d)) st).
Proof.
  intros Hobject Hrecipient Hshape.
  rewrite (send_custom_json_run self recipient_id a _ st Hobject).
  unfold custom_steps. rewrite run_defaults_flat.
  set (d1 := fill "type" (PStr "message") d).
  assert (Hrecipient1 : Py.dict_get "recipient" d1 = Some recipient).
  { unfold d1. now rewrite fill_get. }
  cbn [run_defaults]. rewrite obj_setdefault_here.
  rewrite (fill_present _ _ _ _ Hrecipient1).
  rewrite (obj_setdefault_under _ _ _ _ _ _ Hrecipient1), obj_setdefault_here.
  now destruct recipient.
Qed.

(** ** The webhook and its channel *)

Lemma handle_dispatches
  (self : BotFrameworkInput.t) (on_new_message : UserMessage.t -> M unit)
  (st : World) (activity : pydict)
  (conversation recipient service_url sender sender_id value : pyval) :
  Py.dict_get "type" activity = Some (PStr "message") ->
  Py.dict_get "conversation" activity = Some conversation ->
  Py.dict_get "recipient" activity = Some recipient ->
  Py.dict_get "serviceUrl" activity = Some service_url ->
  Py.dict_get "from" activity = Some sender ->
  Py.getitem sender "id" = Ok sender_id ->
  (Py.truthy (get_or_none "attachments" activity) = false ->
   Py.truthy (get_or_none "text" activity) = false ->
   Py.dict_get "value" activity = Some value) ->
  BotFrameworkInput.handle self on_new_message (PDict activity) st
  = on_new_message
      (normalized self activity conversation recipient service_url
         sender_id value)
      (with_trace (trace st ++ [Logged DEBUG (Dump (PDict activity))]) st).
Proof.
  intros Htype Hconversation Hrecipient Hurl Hfrom Hid Hvalue.
  unfold BotFrameworkInput.handle, normalized, get_or_none in *.
  unfold bind, lift, log, ret. cbn [Py.getitem Py.get].
  rewrite Htype. cbn [Py.eq_str String.eqb Ascii.eqb Bool.eqb].
  rewrite Hconversation, Hrecipient, Hurl.
  destruct (Py.dict_get "attachments" activity) as [attachments|];
    destruct (Py.dict_get "text" activity) as [text|];
    try destruct (Py.truthy attachments) eqn:Hattachments;
    try destruct (Py.truthy text) eqn:Htext;
    cbn [Py.truthy] in *;
    rewrite ?Hattachments, ?Htext, ?Hfrom, ?Hid, ?(Hvalue eq_refl eq_refl);
    reflexivity.
Qed.

(** X14. The channel handed to the backend is bound to the activity it
    came with.  When the backend answers a text message through the output
    channel of the message, each piece of the answer is posted to the
    activities address made of the [serviceUrl] and the conversation id of
    that activity, with the activity's [recipient] (the bot) as [from] and
    the sender of the activity as recipient.  (The conversation of the
    activity has an id, the token stays good and the posts are answered,
    so that the backend's sends return.) *)
Theorem webhook_reply_goes_to_the_conversation
  (self : BotFrameworkInput.t) (st : World) (activity : pydict)
  (conversation recipient service_url sender sender_id conversation_id : pyval)
  (text : string) :
  let channel :=
    BotFramework.__init__ (BotFrameworkInput.app_id self)
      (BotFrameworkInput.app_password self) conversation recipient
      service_url in
  Py.dict_get "type" activity = Some (PStr "message") ->
  Py.dict_get "conversation" activity = Some conversation ->
  Py.dict_get "recipient" activity = Some recipient ->
  Py.dict_get "serviceUrl" activity = Some service_url ->
  Py.dict_get "from" activity = Some sender ->
  Py.getitem sender "id" = Ok sender_id ->
  Py.truthy (get_or_none "attachments" activity) = false ->
  Py.dict_get "text" activity = Some (PStr text) ->
  text <> EmptyString ->
  Py.getitem conversation "id" = Ok conversation_id ->
  activities_answered channel conversation_id st ->
  token_valid st (length (Py.split blank_line text)) ->
  exists st' evs,
    BotFrameworkInput.webhook self echo_handler
      {| Request.json := Ok (PDict activity) |} st
    = (Ok (response_text "success"), st')
    /\ trace st'
       = trace st ++ Logged DEBUG (Dump (PDict activity)) :: evs
    /\ posts evs
       = map (fun piece =>
                {| uri := Py.str service_url +:+ "v3/conversations/"
                            +:+ Py.str conversation_id +:+ "/activities";
                   sent_headers := headers st;
                   data :=
                     TextData
                       (Py.json_dumps
                          (PDict
                             [ ("type", PStr "message");
                               ("recipient", PDict [("id", sender_id)]);
                               ("from", recipient);
                               ("channelData",
                                 PDict [("notification",
                                         PDict [("alert", PStr "true")])]);
                               ("text", PStr piece) ])) |})
           (Py.split blank_line text).
Proof.
  intros channel Htype Hconversation Hrecipient Hurl Hfrom Hsender
    Hattachments Htext Hnonempty Hid Hanswered Hvalid.
  assert (Htruthy : Py.truthy (get_or_none "text" activity) = true).
  { unfold get_or_none. rewrite Htext. cbn.
    now destruct (String.eqb_spec text EmptyString). }
  rewrite webhook_decoded.
  rewrite (handle_dispatches self echo_handler st activity conversation
             recipient service_url sender sender_id PNone
             Htype Hconversation Hrecipient Hurl Hfrom Hsender);
    [|congruence].
  unfold echo_handler, normalized.
  cbn [UserMessage.text UserMessage.output_channel UserMessage.sender_id].
  rewrite Hattachments, Htruthy. unfold get_or_none at 1. rewrite Htext.
  match goal with
  | |- context [BotFramework.send_text_message ?c _ _ _] =>
      change c with channel
  end.
  unfold BotFramework.send_text_message.
  set (st1 := with_trace _ st).
  destruct (for_each_send_valid channel conversation_id
              (fun piece => PDict (BotFramework.prepare_message channel
                                     sender_id [("text", PStr piece)]))
              (Py.split blank_line text) st1 Hid Hanswered Hvalid)
    as (st' & evs & Hrun & (Htrace & _) & _ & _ & Hposts).
  rewrite Hrun. exists st', evs. split; [reflexivity|]. split.
  - rewrite Htrace. cbn. now rewrite <- app_assoc.
  - rewrite Hposts. apply map_ext. intros piece.
    unfold activity_request, activities_uri, channel. cbn.
    now rewrite string_app_assoc.
Qed.

(** X15. A decoded body that is no JSON object, the [None] of an empty
    body included, or an object without [type], is acknowledged like any
    other: the failed lookup of [type] ([TypeError] for what is no object,
    [KeyError] for the missing key) is logged, at error level and with its
    traceback at debug level, nothing else happens, and the backend is not
    called. *)
Theorem webhook_acknowledges_unusable_body
  (self : BotFrameworkInput.t) (on_new_message : UserMessage.t -> M unit)
  (st : World) :
  let logged (e : exn) :=
    with_trace
      (trace st
       ++ [ Logged ERROR
              (WithException "Exception when trying to handle message.{0}" e);
            Logged DEBUG (Traceback e) ])
      st in
  (forall postdata : pyval,
     is_dict postdata = false ->
     BotFrameworkInput.webhook self on_new_message
       {| Request.json := Ok postdata |} st
     = (Ok (response_text "success"), logged TypeError))
  /\ (forall d : pydict,
        Py.dict_get "type" d = None ->
        BotFrameworkInput.webhook self on_new_message
          {| Request.json := Ok (PDict d) |} st
        = (Ok (response_text "success"), logged (KeyError "type"))).
Proof.
  intros logged. split.
  - intros postdata Hshape. rewrite webhook_decoded.
    unfold BotFrameworkInput.handle, bind, lift.
    now destruct postdata.
  - intros d Htype. rewrite webhook_decoded.
    unfold BotFrameworkInput.handle, bind, lift. cbn [Py.getitem].
    now rewrite Htype.
Qed.

(** X16. A send that has to refresh the token uses the new one at once:
    with an expired token, an answer that grants one, and a post that is
    answered, [send] posts the token request and then the activity, and
    the activity goes out under the headers just cached. *)
Theorem send_refreshes_then_posts
  (self : BotFramework.t) (message_data conversation_id : pyval) (st : World)
  (response answer : Response)
  (token_data : pydict) (access_token lifetime : pyval) (seconds : Z) :
  let request :=
    activity_request self conversation_id (Some (bearer access_token))
      message_data in
  Py.getitem (BotFramework.conversation self) "id" = Ok conversation_id ->
  token_expiration_date st < clock st (ticks st) ->
  server st (trace st) (token_request self) = Ok response ->
  ok response = true ->
  json response = Ok (PDict token_data) ->
  Py.dict_get "access_token" token_data = Some access_token ->
  Py.dict_get "expires_in" token_data = Some lifetime ->
  Py.int lifetime = Ok seconds ->
  -999999999 <= seconds / 86400 <= 999999999 ->
  0 <= clock st (S (ticks st)) + seconds * 1000000 <= datetime_max ->
  http_url (activities_uri self conversation_id) = true ->
  server st (trace st ++ [Posted (token_request self)]) request = Ok answer ->
  fst (BotFramework.send self message_data st) = Ok tt
  /\ posts (trace (snd (BotFramework.send self message_data st)))
     = posts (trace st) ++ [token_request self; request]
  /\ headers (snd (BotFramework.send self message_data st))
     = Some (bearer access_token).
Proof.
  intros request Hid Hexpired Hresponse Hok Hjson Htoken Hlifetime Hint
    Hdelta Hdate Hurl Hanswer.
  unfold BotFramework.send, bind, lift. rewrite Hid.
  rewrite (get_headers_granted self st response token_data access_token
             lifetime seconds Hexpired Hresponse Hok Hjson Htoken Hlifetime
             Hint Hdelta Hdate).
  fold (activities_uri self conversation_id).
  unfold requests_post. rewrite Hurl.
  cbn [trace server with_trace with_cache with_ticks].
  fold (activity_request self conversation_id (Some (bearer access_token))
          message_data).
  fold request. rewrite Hanswer.
  destruct (ok answer); cbn; rewrite !posts_app; cbn;
    rewrite <- ?app_assoc, ?app_nil_r; repeat split; reflexivity.
Qed.

(** X20. The token is used up to and including the instant written in
    [token_expiration_date]: a call that reads exactly that instant from
    the clock returns what is cached, [None] if nothing is, and posts
    nothing. *)
Theorem get_headers_on_the_expiration_instant
  (self : BotFramework.t) (st : World) :
  clock st (ticks st) = token_expiration_date st ->
  BotFramework._get_headers self st
  = (Ok (headers st), with_ticks (S (ticks st)) st).
Proof.
  intros Hinstant. apply get_headers_fresh. lia.
Qed.

(** ** The further properties at sample values *)

Lemma absent_token_is_expired_sample :
  let st0 := snd (BotFramework.class_body (sample_world granting_server)) in
  headers st0 = None
  /\ token_expiration_date st0 < clock st0 (ticks st0)
  /\ posts (trace (snd (BotFramework._get_headers sample_channel st0)))
     = posts (trace (sample_world granting_server))
       ++ [token_request sample_channel].
Proof.
  apply (absent_token_is_expired sample_channel
           (sample_world granting_server)).
  cbn. lia.
Defined.

Lemma send_after_refused_token_sample :
  fst (BotFramework.send sample_channel (PDict [("text", PStr "hi")])
         (sample_world refusing_server))
  = Ok tt
  /\ posts (trace (snd (BotFramework.send sample_channel
                          (PDict [("text", PStr "hi")])
                          (sample_world refusing_server))))
     = posts (trace (sample_world refusing_server))
       ++ [ token_request sample_channel;
            activity_request sample_channel (PStr "c1") None
              (PDict [("text", PStr "hi")]) ].
Proof.
  apply (send_after_refused_token sample_channel
           (PDict [("text", PStr "hi")]) (PStr "c1")
           (sample_world refusing_server)
           {| ok := false; text := "denied"; json := Raise ValueError |}
           {| ok := false; text := "denied"; json := Raise ValueError |});
    try reflexivity; cbn; lia.
Defined.

Lemma send_elements_delivers_sample :
  exists st' evs,
    BotFramework.send_elements sample_channel (PStr "user")
      [[("text", PStr "one")]; [("channelData", PDict [])]] ready_world
    = (Ok tt, st')
    /\ trace st' = trace ready_world ++ evs
    /\ posts evs
       = map (fun e =>
                activity_request sample_channel (PStr "c1")
                  (headers ready_world)
                  (PDict (BotFramework.prepare_message sample_channel
                            (PStr "user") e)))
           [[("text", PStr "one")]; [("channelData", PDict [])]].
Proof.
  apply (send_elements_delivers sample_channel (PStr "user")
           [[("text", PStr "one")]; [("channelData", PDict [])]]
           (PStr "c1") ready_world).
  - reflexivity.
  - apply (ready_world_answers sample_channel (PStr "c1") ∅). reflexivity.
  - apply (ready_world_valid _ ∅). cbn. lia.
Defined.

Lemma get_headers_refresh_then_reuse_sample :
  exists st',
    repeatedly 2 (BotFramework._get_headers sample_channel)
      (sample_world granting_server)
    = (Ok [Some (bearer (PStr "abc")); Some (bearer (PStr "abc"))], st')
    /\ posts (trace st')
       = posts (trace (sample_world granting_server))
         ++ [token_request sample_channel]
    /\ headers st' = Some (bearer (PStr "abc")).
Proof.
  apply (get_headers_refresh_then_reuse sample_channel
           (sample_world granting_server)
           {| ok := true;
              text := "";
              json := Ok (PDict [ ("access_token", PStr "abc");
                                  ("expires_in", PInt 3600) ]) |}
           [("access_token", PStr "abc"); ("expires_in", PInt 3600)]
           (PStr "abc") (PInt 3600) 3600);
    try reflexivity; try (cbn; lia); vm_compute; split; discriminate.
Defined.

Lemma get_headers_nonpositive_lifetime_sample :
  posts (trace (snd (repeatedly 2 (BotFramework._get_headers sample_channel)
                       (sample_world hasty_server))))
  = posts (trace (sample_world hasty_server))
    ++ [token_request sample_channel; token_request sample_channel].
Proof.
  apply (get_headers_nonpositive_lifetime sample_channel
           (sample_world hasty_server)
           {| ok := true;
              text := "";
              json := Ok (PDict [ ("access_token", PStr "abc");
                                  ("expires_in", PInt 0) ]) |}
           [("access_token", PStr "abc"); ("expires_in", PInt 0)]
           (PStr "abc") (PInt 0) 0);
    try reflexivity; try (cbn; lia); vm_compute;
    first [discriminate | split; discriminate].
Defined.

Lemma get_headers_refused_every_time_sample :
  exists st',
    repeatedly 3 (BotFramework._get_headers sample_channel)
      (sample_world refusing_server)
    = (Ok (repeat None 3), st')
    /\ posts (trace st')
       = posts (trace (sample_world refusing_server))
         ++ repeat (token_request sample_channel) 3
    /\ token_expiration_date st'
       = token_expiration_date (sample_world refusing_server)
    /\ headers st' = headers (sample_world refusing_server).
Proof.
  apply (get_headers_refused_every_time sample_channel
           (sample_world refusing_server) 3);
    [intros i Hi; cbn; lia | intros tr; eexists; split; reflexivity].
Defined.

Lemma get_headers_incomplete_answer_sample :
  exists e : exn,
    BotFramework._get_headers sample_channel (sample_world hollow_server)
    = (Raise e,
       with_trace
         (trace (sample_world hollow_server)
          ++ [Posted (token_request sample_channel)])
         (with_ticks 2 (sample_world hollow_server)))
    /\ BotFramework.send sample_channel (PDict [("text", PStr "hi")])
         (sample_world hollow_server)
       = (Raise e,
          with_trace
            (trace (sample_world hollow_server)
             ++ [Posted (token_request sample_channel)])
            (with_ticks 2 (sample_world hollow_server))).
Proof.
  apply (get_headers_incomplete_answer sample_channel
           (PDict [("text", PStr "hi")]) (PStr "c1")
           (sample_world hollow_server)
           {| ok := true; text := "{}"; json := Ok (PDict []) |});
    try reflexivity; cbn; lia.
Defined.

Lemma get_headers_date_out_of_range_sample :
  BotFramework._get_headers sample_channel (sample_world lavish_server)
  = (Raise OverflowError,
     with_trace
       (trace (sample_world lavish_server)
        ++ [Posted (token_request sample_channel)])
       (with_ticks 3 (sample_world lavish_server))).
Proof.
  apply (get_headers_date_out_of_range sample_channel
           (sample_world lavish_server)
           {| ok := true;
              text := "";
              json := Ok (PDict [ ("access_token", PStr "abc");
                                  ("expires_in", PInt 1000000000000) ]) |}
           [ ("access_token", PStr "abc");
             ("expires_in", PInt 1000000000000) ]
           (PStr "abc") (PInt 1000000000000) 1000000000000);
    try reflexivity; try (cbn; lia).
  - vm_compute. split; discriminate.
  - unfold datetime_max. cbn. lia.
Defined.

Lemma send_posts_once_and_logs_failure_sample :
  BotFramework.send sample_channel (PDict [("text", PStr "hi")]) cached_world
  = (Ok tt,
     with_trace
       [ Posted (activity_request sample_channel (PStr "c1")
                   (headers cached_world) (PDict [("text", PStr "hi")]));
         Logged ERROR
           (WithText "Error trying to send botframework messge. Response: %s"
              "denied") ]
       (with_ticks 2 cached_world)).
Proof.
  apply (send_posts_once_and_logs_failure sample_channel
           (PDict [("text", PStr "hi")]) (PStr "c1") cached_world
           {| ok := false; text := "denied"; json := Raise ValueError |});
    try reflexivity; cbn; lia.
Defined.

Lemma send_needs_conversation_id_sample :
  (forall message_data,
     BotFramework.send lost_channel message_data
       (sample_world granting_server)
     = (Raise (KeyError "id"), sample_world granting_server))
  /\ (forall recipient_id text,
        BotFramework.send_text_message lost_channel recipient_id text
          (sample_world granting_server)
        = (Raise (KeyError "id"), sample_world granting_server))
  /\ (forall recipient_id image,
        BotFramework.send_image_url lost_channel recipient_id image
          (sample_world granting_server)
        = (Raise (KeyError "id"), sample_world granting_server))
  /\ (forall recipient_id text buttons,
        BotFramework.send_text_with_buttons lost_channel recipient_id text
          buttons (sample_world granting_server)
        = (Raise (KeyError "id"), sample_world granting_server)).
Proof.
  apply (send_needs_conversation_id lost_channel (KeyError "id")
           (sample_world granting_server)).
  reflexivity.
Defined.

Lemma send_image_url_delivers_card_sample :
  BotFramework.send_image_url sample_channel (PStr "user")
    (PStr "https://x/y.png") ready_world
  = (Ok tt,
     with_trace
       [ Posted
           (activity_request sample_channel (PStr "c1") (headers ready_world)
              (PDict (default_fields sample_channel (PStr "user")
                      ++ [("attachments",
                           PList [image_card (PStr "https://x/y.png")])]))) ]
       (with_ticks 2 ready_world)).
Proof.
  apply (send_image_url_delivers_card sample_channel (PStr "user")
           (PStr "https://x/y.png") (PStr "c1") ready_world
           {| ok := true;
              text := "";
              json := Ok (PDict [ ("access_token", PStr "abc");
                                  ("expires_in", PInt 3600) ]) |});
    try reflexivity; cbn; lia.
Defined.

Lemma send_text_with_buttons_delivers_card_sample :
  BotFramework.send_text_with_buttons sample_channel (PStr "user")
    (PStr "Pick one")
    (PList [PDict [("title", PStr "Yes"); ("payload", PStr "/yes")]])
    ready_world
  = (Ok tt,
     with_trace
       [ Posted
           (activity_request sample_channel (PStr "c1") (headers ready_world)
              (PDict (default_fields sample_channel (PStr "user")
                      ++ [("attachments",
                           PList
                             [buttons_card (PStr "Pick one")
                                (PList [PDict [("title", PStr "Yes");
                                               ("payload", PStr "/yes")]])])])))
       ]
       (with_ticks 2 ready_world)).
Proof.
  apply (send_text_with_buttons_delivers_card sample_channel (PStr "user")
           (PStr "Pick one")
           (PList [PDict [("title", PStr "Yes"); ("payload", PStr "/yes")]])
           (PStr "c1") ready_world
           {| ok := true;
              text := "";
              json := Ok (PDict [ ("access_token", PStr "abc");
                                  ("expires_in", PInt 3600) ]) |});
    try reflexivity; cbn; lia.
Defined.

Lemma send_text_message_pieces_sample :
  exists st' evs,
    BotFramework.send_text_message sample_channel (PStr "user")
      ("a" +:+ blank_line +:+ "b") ready_world
    = (Ok tt, st')
    /\ trace st' = trace ready_world ++ evs
    /\ posts evs
       = map (fun piece =>
                activity_request sample_channel (PStr "c1")
                  (headers ready_world)
                  (PDict (BotFramework.prepare_message sample_channel
                            (PStr "user") [("text", PStr piece)])))
           ["a"; "b"].
Proof.
  destruct (send_text_message_pieces sample_channel (PStr "user")
              ("a" +:+ blank_line +:+ "b"))
    as (_ & _ & _ & Hsends).
  apply (Hsends (PStr "c1") ready_world).
  - reflexivity.
  - apply (ready_world_answers sample_channel (PStr "c1") ∅). reflexivity.
  - apply (ready_world_valid 2 ∅). lia.
Defined.

Lemma send_custom_json_twice_sample :
  let request :=
    activity_request sample_channel (PStr "c1") (headers ready_world)
      (PDict (with_defaults sample_channel (PStr "user")
                [("text", PStr "hi")])) in
  exists st1 st2 evs1 evs2,
    BotFramework.send_custom_json sample_channel (PStr "user") (object_at 0)
      (ready_with_message [("text", PStr "hi")])
    = (Ok tt, st1)
    /\ BotFramework.send_custom_json sample_channel (PStr "user")
         (object_at 0) st1
       = (Ok tt, st2)
    /\ trace st1 = trace (ready_with_message [("text", PStr "hi")]) ++ evs1
    /\ trace st2 = trace st1 ++ evs2
    /\ posts evs1 = [request]
    /\ posts evs2 = [request]
    /\ heap st2 = heap st1.
Proof.
  apply (send_custom_json_twice sample_channel (PStr "user") 0
           [("text", PStr "hi")] (PStr "c1")
           (ready_with_message [("text", PStr "hi")])).
  - reflexivity.
  - reflexivity.
  - reflexivity.
  - apply (ready_world_answers sample_channel (PStr "c1")). reflexivity.
  - apply ready_world_valid. lia.
Defined.

Lemma send_custom_json_leaves_type_behind_sample :
  BotFramework.send_custom_json sample_channel (PStr "user") (object_at 0)
    (with_message [("recipient", PStr "bob")])
  = (Raise AttributeError,
     holding 0
       (PDict (fill "type" (PStr "message") [("recipient", PStr "bob")]))
       (with_message [("recipient", PStr "bob")])).
Proof.
  apply (send_custom_json_leaves_type_behind sample_channel (PStr "user") 0
           [("recipient", PStr "bob")] (PStr "bob")
           (with_message [("recipient", PStr "bob")]));
    reflexivity.
Defined.

Lemma webhook_reply_goes_to_the_conversation_sample :
  exists st' evs,
    BotFrameworkInput.webhook sample_input echo_handler
      {| Request.json := Ok (PDict hello_activity) |} ready_world
    = (Ok (response_text "success"), st')
    /\ trace st'
       = trace ready_world
         ++ Logged DEBUG (Dump (PDict hello_activity)) :: evs
    /\ posts evs
       = map (fun piece =>
                {| uri := Py.str (PStr "https://smba.example/")
                            +:+ "v3/conversations/"
                            +:+ Py.str (PStr "c1") +:+ "/activities";
                   sent_headers := headers ready_world;
                   data :=
                     TextData
                       (Py.json_dumps
                          (PDict
                             [ ("type", PStr "message");
                               ("recipient", PDict [("id", PStr "user")]);
                               ("from", PDict [("id", PStr "bot")]);
                               ("channelData",
                                 PDict [("notification",
                                         PDict [("alert", PStr "true")])]);
                               ("text", PStr piece) ])) |})
           (Py.split blank_line "hello").
Proof.
  apply (webhook_reply_goes_to_the_conversation sample_input
           ready_world hello_activity
           (PDict [("id", PStr "c1")]) (PDict [("id", PStr "bot")])
           (PStr "https://smba.example/") (PDict [("id", PStr "user")])
           (PStr "user") (PStr "c1") "hello");
    try reflexivity.
  - discriminate.
  - apply (ready_world_answers sample_channel (PStr "c1") ∅). reflexivity.
  - apply (ready_world_valid 1 ∅). lia.
Defined.

Lemma send_refreshes_then_posts_sample :
  fst (BotFramework.send sample_channel (PDict [("text", PStr "hi")])
         (sample_world granting_server))
  = Ok tt
  /\ posts (trace (snd (BotFramework.send sample_channel
                          (PDict [("text", PStr "hi")])
                          (sample_world granting_server))))
     = posts (trace (sample_world granting_server))
       ++ [ token_request sample_channel;
            activity_request sample_channel (PStr "c1")
              (Some (bearer (PStr "abc"))) (PDict [("text", PStr "hi")]) ]
  /\ headers (snd (BotFramework.send sample_channel
                     (PDict [("text", PStr "hi")])
                     (sample_world granting_server)))
     = Some (bearer (PStr "abc")).
Proof.
  apply (send_refreshes_then_posts sample_channel
           (PDict [("text", PStr "hi")]) (PStr "c1")
           (sample_world granting_server)
           {| ok := true;
              text := "";
              json := Ok (PDict [ ("access_token", PStr "abc");
                                  ("expires_in", PInt 3600) ]) |}
           {| ok := true;
              text := "";
              json := Ok (PDict [ ("access_token", PStr "abc");
                                  ("expires_in", PInt 3600) ]) |}
           [("access_token", PStr "abc"); ("expires_in", PInt 3600)]
           (PStr "abc") (PInt 3600) 3600);
    try reflexivity; try (cbn; lia); vm_compute; split; discriminate.
Defined.

Lemma get_headers_on_the_expiration_instant_sample :
  BotFramework._get_headers sample_channel
    (with_cache 1001000 None (sample_world granting_server))
  = (Ok None,
     with_ticks 2 (with_cache 1001000 None (sample_world granting_server))).
Proof.
  apply (get_headers_on_the_expiration_instant sample_channel
           (with_cache 1001000 None (sample_world granting_server))).
  reflexivity.
Defined.

(** the health route answers with the one object, written without blanks *)
Example health_answer :
  fst (BotFrameworkInput.health {| Request.json := Ok PNone |} ready_world)
  = Ok {| status := 200;
          content_type := "application/json";
          body := "{" +:+ quoted "status" +:+ ":" +:+ quoted "ok" +:+ "}" |}.
Proof. reflexivity. Qed.
